(** * qf-lib: signals to orders

    A shallow embedding of the signal-to-order pipeline of qf-lib:

    - [qf_lib/backtesting/order/execution_style.py]
    - [qf_lib/backtesting/position_sizer/initial_risk_position_sizer.py]
    - [qf_lib/backtesting/strategies/alpha_model_strategy.py]

    Python floats are IEEE binary64 numbers and are embedded as Rocq's
    primitive floats; Python integers are embedded as [Z].  Methods that
    call collaborators (order factory, broker, random generator) are
    embedded in a state-and-exception monad whose state records the calls
    made, in order. *)

From Stdlib Require Import ZArith List Bool Lia.
From Stdlib Require Import Floats.
From stdpp Require Import base option list sorting gmap sets strings.

Set Warnings "-inexact-float".

Set Default Proof Using "Type".

(** ** Python outcomes: a value is returned or an exception is raised *)

Inductive PyExn : Type :=
| AssertionError (msg : string)
| ValueError (msg : string)
| ZeroDivisionError (msg : string)
| NoValidTickerException
| CollaboratorError (msg : string).

Inductive Outcome (A : Type) : Type :=
| Returns (a : A)
| Raises (e : PyExn).
Arguments Returns {A} a.
Arguments Raises {A} e.

(** A computation over a state [St] that may raise. *)
Definition M (St A : Type) : Type := St -> Outcome A * St.

Definition ret {St A} (a : A) : M St A := fun s => (Returns a, s).

Definition raise {St A} (e : PyExn) : M St A := fun s => (Raises e, s).

Definition bind {St A B} (c : M St A) (k : A -> M St B) : M St B :=
  fun s =>
    match c s with
    | (Returns a, s') => k a s'
    | (Raises e, s') => (Raises e, s')
    end.

Definition lift {St A} (o : Outcome A) : M St A := fun s => (o, s).

(** [assert cond, msg] *)
Definition py_assert {St} (cond : bool) (msg : string) : M St unit :=
  if cond then ret tt else raise (AssertionError msg).

Notation "'let*' x ':=' c 'in' k" := (bind c (fun x => k))
  (at level 10, x pattern, c at level 100, k at level 200).
Notation "c ';;;' k" := (bind c (fun _ => k))
  (at level 100, k at level 200, right associativity).

(** ** Floats as Python has them *)

(** Modelled from the spec: [is_finite_number] of
    [qf_lib.common.utils.numberutils] is not among the sources; the spec
    calls a number finite when it is neither NaN nor an infinity. *)
Definition is_finite_number (x : float) : bool :=
  negb (PrimFloat.is_nan x) && negb (PrimFloat.is_infinity x).

(** [a / b] on builtin Python floats: CPython's [float_div] raises
    [ZeroDivisionError] when [b == 0.0] (which [-0.0] satisfies too) and
    otherwise returns the IEEE quotient.  (Division with a [numpy.float64]
    operand is [TypedOperands.truediv].) *)
Definition py_truediv (a b : float) : Outcome float :=
  if PrimFloat.eqb b PrimFloat.zero
  then Raises (ZeroDivisionError "float division by zero")
  else Returns (PrimFloat.div a b).

(** ** Data model *)

(** Modelled from the spec: the [Exposure] enumeration is not among the
    sources; it has the three members LONG, OUT and SHORT, obtained from
    the sign of a quantity (positive, zero, negative). *)
Inductive Exposure : Type := LONG | OUT | SHORT.

Global Instance Exposure_eq_dec : EqDecision Exposure.
Proof. solve_decision. Defined.

(** [Exposure(np.sign(q))] *)
Definition Exposure_of_sign (q : Z) : Exposure :=
  match Z.sgn q with
  | Zpos _ => LONG
  | Z0 => OUT
  | Zneg _ => SHORT
  end.

(** A specific (tradable) ticker is identified by its name.  A
    [FutureTicker] stands for a family of specific contracts and answers
    two queries: its current specific ticker (which may raise
    [NoValidTickerException]) and whether a specific ticker belongs to the
    family. *)
Record FutureTicker : Type := {
  family_name : string;
  get_current_specific_ticker : Outcome string;
  belongs_to_family : string -> bool
}.

Inductive Ticker : Type :=
| SpecificTicker (name : string)
| FutureTickerOf (family : FutureTicker).

(** Modelled from the spec: a [Signal] carries a ticker, a suggested
    exposure and a fraction at risk. *)
Record Signal : Type := {
  ticker : Ticker;
  suggested_exposure : Exposure;
  fraction_at_risk : float
}.

Record Position : Type := {
  position_ticker : string;
  position_quantity : Z
}.

(** [execution_style.py] *)
Inductive ExecutionStyle : Type :=
| MarketOrder
| MarketOnCloseOrder
| StopOrder (stop_price : float).

Definition Contract : Type := string.

(** Modelled from the spec: an [Order] is a contract, a signed quantity,
    an execution style and a time in force. *)
Record Order : Type := {
  order_contract : Contract;
  order_quantity : Z;
  order_execution_style : ExecutionStyle;
  order_time_in_force : string
}.

(** ** InitialRiskPositionSizer *)

Module InitialRiskPositionSizer.

(** Calls received by the order factory. *)
Inductive FactoryCall : Type :=
| target_percent_orders_call
    (contract : Contract) (target_percentage : float) (style : ExecutionStyle)
| orders_call
    (contract : Contract) (quantity : Z) (style : ExecutionStyle).

(** The target percentages handed to the factory, in call order. *)
Definition targets_passed (log : list FactoryCall) : list float :=
  omap (fun c => match c with
                 | target_percent_orders_call _ t _ => Some t
                 | orders_call _ _ _ => None
                 end) log.

Section Sizer.
(** [self._initial_risk] *)
Variable initial_risk : float.
(** [self._order_factory]: what it answers to each request. *)
Variable target_percent_orders :
  Contract -> float -> ExecutionStyle -> Outcome (list Order).
Variable orders : Contract -> Z -> ExecutionStyle -> Outcome (list Order).
(** [self._calculate_stop_price], inherited from [PositionSizer]. *)
Variable _calculate_stop_price : Signal -> float.
(** [self._broker.get_positions()], by contract. *)
Variable broker_positions : list (Contract * Z).

Definition order_factory_target_percent_orders
    (contract : Contract) (target : float) (style : ExecutionStyle)
  : M (list FactoryCall) (list Order) :=
  fun log =>
    (target_percent_orders contract target style,
     log ++ [target_percent_orders_call contract target style]).

Definition order_factory_orders
    (contract : Contract) (quantity : Z) (style : ExecutionStyle)
  : M (list FactoryCall) (list Order) :=
  fun log =>
    (orders contract quantity style,
     log ++ [orders_call contract quantity style]).

(** Modelled from the spec: [_get_existing_position_quantity] of
    [PositionSizer] is not among the sources; it returns the
    broker-reported signed quantity for the contract, or 0 if there is
    none. *)
Definition _get_existing_position_quantity (contract : Contract) : Z :=
  match List.find (fun p => bool_decide (p.1 = contract)) broker_positions with
  | Some p => p.2
  | None => 0
  end.

Definition _generate_market_order (contract : Contract) (signal : Signal)
  : M (list FactoryCall) (option Order) :=
  py_assert (is_finite_number initial_risk)
            "Initial risk has to be a finite number" ;;;
  py_assert (is_finite_number (fraction_at_risk signal))
            "fraction_at_risk has to be a finite number" ;;;
  let* target_percentage :=
    lift (py_truediv initial_risk (fraction_at_risk signal)) in
  py_assert (is_finite_number target_percentage)
            "target_percentage has to be a finite number" ;;;
  let* market_order_list :=
    order_factory_target_percent_orders contract target_percentage MarketOrder in
  if Nat.eqb (length market_order_list) 0 then ret None
  else
    py_assert (Nat.eqb (length market_order_list) 1)
              "Only one order should be generated" ;;;
    ret (head market_order_list).

Definition _generate_stop_order
    (contract : Contract) (signal : Signal) (market_order : option Order)
  : M (list FactoryCall) (option Order) :=
  let stop_price := _calculate_stop_price signal in
  let stop_quantity := _get_existing_position_quantity contract in
  let stop_quantity :=
    match market_order with
    | Some mo => (stop_quantity + order_quantity mo)%Z
    | None => stop_quantity
    end in
  let* stop_orders :=
    order_factory_orders contract (- stop_quantity)%Z (StopOrder stop_price) in
  if Nat.eqb (length stop_orders) 0 then ret None
  else
    py_assert (Nat.eqb (length stop_orders) 1)
              "Only one order should be generated" ;;;
    ret (head stop_orders).

End Sizer.

End InitialRiskPositionSizer.

(** ** AlphaModelStrategy *)

(** [sorted(l, key=...)]: Python's sort is stable and compares keys with
    [<] only.  On keys that [<] orders totally (floats without NaN) the
    stable ascending arrangement is unique, so this stable insertion sort
    returns the list Python returns.  With a NaN among the keys Python's
    result is another permutation of the list; whatever is stated about
    the order of the result is stated for keys without NaN. *)
Fixpoint insert_by_key {A} (key : A -> float) (x : A) (l : list A) : list A :=
  match l with
  | [] => [x]
  | y :: l' =>
      if PrimFloat.ltb (key y) (key x) then y :: insert_by_key key x l'
      else x :: y :: l'
  end.

Definition sorted {A} (l : list A) (key : A -> float) : list A :=
  foldr (insert_by_key key) [] l.

Module AlphaModelStrategy.

(** Calls received by the broker. *)
Inductive BrokerCall : Type :=
| cancel_all_open_orders_call
| place_orders_call (orders : list Order).

(** Signals are objects: the strategy holds a list of references to them
    and suppresses a signal by assigning to its attribute.  [Ref] is the
    identity of a signal object. *)
Definition Ref : Type := nat.

(** Calls to Python's [random] module. *)
Inductive RandomCall : Type :=
| seed_call (x : float)
| sample_call (population : list Ref) (k : Z).

Definition with_suggested_exposure (s : Signal) (e : Exposure) : Signal :=
  {| ticker := ticker s; suggested_exposure := e;
     fraction_at_risk := fraction_at_risk s |}.

Section Strategy.
(** The state of Python's global random generator: [random.seed(x)] sets
    it from [x] alone; [random.sample] of a population of size [n] with
    [k] requested elements picks positions of the population and advances
    the state. *)
Context {RngState : Type}.
Variable random_seed : float -> RngState.
Variable random_draw : RngState -> nat -> nat -> list nat * RngState.

Record World : Type := {
  signal_store : Ref -> Signal;
  rng : RngState;
  random_log : list RandomCall;
  broker_log : list BrokerCall
}.

(** Configuration and collaborators of the strategy. *)
Variable max_open_positions : Z.
Variable use_stop_losses : bool.
Variable time_in_force : string.
Variable frequency : string.
(** [self._broker.get_positions()] *)
Variable broker_positions : list Position.
(** [self.timer.now().timestamp()] *)
Variable now_timestamp : float.
Variable size_signals :
  list Signal -> bool -> string -> string -> Outcome (list Order).
Variable generate_close_orders : Outcome (list Order).
(** [adjust_orders] of each configured filter, in configured order. *)
Variable orders_filters : list (list Order -> Outcome (list Order)).
Variable broker_cancel_all_open_orders : Outcome unit.
Variable broker_place_orders : list Order -> Outcome unit.

(** [random.seed(x)] *)
Definition seed (x : float) : M World unit :=
  fun w =>
    (Returns tt,
     {| signal_store := signal_store w;
        rng := random_seed x;
        random_log := random_log w ++ [seed_call x];
        broker_log := broker_log w |}).

(** [random.sample(population, k)]: raises [ValueError] unless
    [0 <= k <= len(population)]; otherwise returns the elements at the
    drawn positions. *)
Definition sample (population : list Ref) (k : Z) : M World (list Ref) :=
  fun w =>
    let n := length population in
    let log := random_log w ++ [sample_call population k] in
    if (k <? 0)%Z || (Z.of_nat n <? k)%Z
    then (Raises (ValueError "Sample larger than population or is negative"),
          {| signal_store := signal_store w;
             rng := rng w;
             random_log := log;
             broker_log := broker_log w |})
    else
      let drawn := random_draw (rng w) n (Z.to_nat k) in
      (Returns (omap (fun i => population !! i) drawn.1),
       {| signal_store := signal_store w;
          rng := drawn.2;
          random_log := log;
          broker_log := broker_log w |}).

(** [signal.suggested_exposure = e] *)
Definition set_suggested_exposure (signal : Ref) (e : Exposure) : M World unit :=
  fun w =>
    (Returns tt,
     {| signal_store := fun r =>
          if Nat.eqb r signal
          then with_suggested_exposure (signal_store w r) e
          else signal_store w r;
        rng := rng w;
        random_log := random_log w;
        broker_log := broker_log w |}).

Fixpoint for_each {A} (l : list A) (body : A -> M World unit) : M World unit :=
  match l with
  | [] => ret tt
  | x :: l' => body x ;;; for_each l' body
  end.

Definition position_for_ticker_exists_in_portfolio
    (open_positions_specific_tickers : gset string) (t : Ticker) : bool :=
  match t with
  | FutureTickerOf f =>
      existsb (belongs_to_family f) (elements open_positions_specific_tickers)
  | SpecificTicker name =>
      bool_decide (name ∈ open_positions_specific_tickers)
  end.

(** The test of the comprehension that builds [open_positions_signals]. *)
Definition is_open_positions_signal (tickers : gset string) (s : Signal) : bool :=
  position_for_ticker_exists_in_portfolio tickers (ticker s).

(** The test of the comprehension that builds [new_positions_signals]. *)
Definition is_new_positions_signal (tickers : gset string) (s : Signal) : bool :=
  negb (position_for_ticker_exists_in_portfolio tickers (ticker s))
  && negb (bool_decide (suggested_exposure s = OUT)).

Definition _adjust_number_of_open_positions (signals : list Ref)
  : M World (list Ref) :=
  fun w0 =>
  (let open_positions_specific_tickers : gset string :=
     list_to_set (position_ticker <$> broker_positions) in
   let open_positions_signals :=
     List.filter (fun r => is_open_positions_signal
                             open_positions_specific_tickers (signal_store w0 r))
                 signals in
   let new_positions_signals :=
     List.filter (fun r => is_new_positions_signal
                             open_positions_specific_tickers (signal_store w0 r))
                 signals in
   let number_of_positions_to_be_open :=
     (Z.of_nat (length new_positions_signals)
      + Z.of_nat (length open_positions_signals))%Z in
   (if (max_open_positions <? number_of_positions_to_be_open)%Z then
      let no_of_signals_to_change :=
        (number_of_positions_to_be_open - max_open_positions)%Z in
      seed now_timestamp ;;;
      let new_positions_signals :=
        sorted new_positions_signals
               (fun r => fraction_at_risk (signal_store w0 r)) in
      let* signals_to_change :=
        sample new_positions_signals no_of_signals_to_change in
      for_each signals_to_change (fun signal => set_suggested_exposure signal OUT)
    else ret tt) ;;;
   ret signals) w0.

Fixpoint apply_orders_filters
    (filters : list (list Order -> Outcome (list Order))) (orders : list Order)
  : Outcome (list Order) :=
  match filters with
  | [] => Returns orders
  | adjust_orders :: rest =>
      match orders with
      | [] => apply_orders_filters rest orders
      | _ :: _ =>
          match adjust_orders orders with
          | Returns orders' => apply_orders_filters rest orders'
          | Raises e => Raises e
          end
      end
  end.

Definition broker_call (c : BrokerCall) (answer : Outcome unit) : M World unit :=
  fun w =>
    (answer,
     {| signal_store := signal_store w;
        rng := rng w;
        random_log := random_log w;
        broker_log := broker_log w ++ [c] |}).

(** The order list of a cycle as it stands before submission: sized
    signals, then the rolling close orders, then the filters. *)
Definition orders_to_submit (signals : list Ref) : M World (list Order) :=
  fun w0 =>
  (let* orders :=
     lift (size_signals (signal_store w0 <$> signals)
                        use_stop_losses time_in_force frequency) in
   let* close_orders := lift generate_close_orders in
   let orders := orders ++ close_orders in
   lift (apply_orders_filters orders_filters orders)) w0.

Definition _place_orders (signals : list Ref) : M World unit :=
  let* orders := orders_to_submit signals in
  broker_call cancel_all_open_orders_call broker_cancel_all_open_orders ;;;
  broker_call (place_orders_call orders) (broker_place_orders orders).

End Strategy.

(** [{position.ticker(): position.quantity() for position in current_positions}]:
    a later position with the same ticker overwrites an earlier one. *)
Definition ticker_to_quantity_of (current_positions : list Position)
  : gmap string Z :=
  foldl (fun m p => <[position_ticker p := position_quantity p]> m)
        ∅ current_positions.

Definition _get_current_exposure (t : Ticker) (current_positions : list Position)
  : Outcome Exposure :=
  let ticker_to_quantity := ticker_to_quantity_of current_positions in
  if negb (Nat.eqb (size ticker_to_quantity) (length current_positions))
  then Raises (AssertionError "There should be max 1 position open per ticker")
  else
    match (match t with
           | FutureTickerOf f => get_current_specific_ticker f
           | SpecificTicker name => Returns name
           end) with
    | Raises e => Raises e
    | Returns current_ticker =>
        let current_ticker_quantity :=
          default 0%Z (ticker_to_quantity !! current_ticker) in
        match t with
        | FutureTickerOf f =>
            if (current_ticker_quantity =? 0)%Z then
              let matching_positions :=
                List.filter (fun p => belongs_to_family f (position_ticker p))
                            current_positions in
              if Nat.ltb 1 (length matching_positions) then
                let matching_tickers := position_ticker <$> matching_positions in
                Raises (AssertionError
                  ("There should be no more then 1 position open for an already expired contract for a future ticker. Detected positions open for the following contracts: "
                   +:+ String.concat ", " matching_tickers +:+ "."))
              else
                Returns (Exposure_of_sign
                           match matching_positions with
                           | p :: _ => position_quantity p
                           | [] => 0%Z
                           end)
            else Returns (Exposure_of_sign current_ticker_quantity)
        | SpecificTicker _ => Returns (Exposure_of_sign current_ticker_quantity)
        end
    end.

End AlphaModelStrategy.

(** * Vocabulary of the statements *)

Module Vocabulary.
Import InitialRiskPositionSizer AlphaModelStrategy.

(** What both generators do with the factory's answer: no order for an
    empty answer, the order for a singleton, an assertion failure
    otherwise. *)
Definition single_order_or_none (answer : list Order) : Outcome (option Order) :=
  match answer with
  | [] => Returns None
  | [o] => Returns (Some o)
  | _ :: _ :: _ => Raises (AssertionError "Only one order should be generated")
  end.

(** The current contract's quantity, read off the snapshot itself. *)
Definition current_contract_quantity (current : string) (positions : list Position) : Z :=
  match List.find (fun p => bool_decide (position_ticker p = current)) positions with
  | Some p => position_quantity p
  | None => 0%Z
  end.

(** The store after [signal.suggested_exposure = e] on the object [s]. *)
Definition assign_exposure (e : Exposure) (h : Ref -> Signal) (s : Ref) : Ref -> Signal :=
  fun r => if Nat.eqb r s then with_suggested_exposure (h r) e else h r.

Definition open_tickers (broker_positions : list Position) : gset string :=
  list_to_set (position_ticker <$> broker_positions).

(** Signals of the list whose ticker has an open position. *)
Definition opened (broker_positions : list Position) (h : Ref -> Signal)
    (signals : list Ref) : list Ref :=
  List.filter (fun r => is_open_positions_signal (open_tickers broker_positions) (h r))
              signals.

(** Signals of the list that would open a new position. *)
Definition candidates (broker_positions : list Position) (h : Ref -> Signal)
    (signals : list Ref) : list Ref :=
  List.filter (fun r => is_new_positions_signal (open_tickers broker_positions) (h r))
              signals.

(** Signals of the list that a run suppressed: not OUT before, OUT after. *)
Definition suppressed (before after : Ref -> Signal) (signals : list Ref) : list Ref :=
  List.filter (fun r => negb (bool_decide (suggested_exposure (before r) = OUT))
                        && bool_decide (suggested_exposure (after r) = OUT))
              signals.

(** What is asked of [random.sample]'s drawing of positions. *)
Definition draw_contract {RngState}
    (random_draw : RngState -> nat -> nat -> list nat * RngState) : Prop :=
  forall g n k, k <= n ->
    length (random_draw g n k).1 = k
    /\ NoDup (random_draw g n k).1
    /\ Forall (fun i => i < n) (random_draw g n k).1.

(** Ascending by key: no element is followed by one with a smaller key. *)
Definition ascending {A} (key : A -> float) (l : list A) : Prop :=
  Sorted (fun a b => PrimFloat.leb (key a) (key b) = true) l.

End Vocabulary.

(** * Sample signals, portfolios and collaborators *)

Module Samples.
Import InitialRiskPositionSizer AlphaModelStrategy Vocabulary.

(** A sample signal, factory and portfolio. *)
Definition aapl_signal (far : float) : Signal :=
  {| ticker := SpecificTicker "AAPL"; suggested_exposure := LONG;
     fraction_at_risk := far |}.

Definition one_order_factory {Q} (c : Contract) (q : Q) (style : ExecutionStyle)
  : Outcome (list Order) :=
  Returns [{| order_contract := c; order_quantity := 10;
              order_execution_style := style; order_time_in_force := "OPG" |}].

Definition empty_factory {Q} (c : Contract) (q : Q) (style : ExecutionStyle)
  : Outcome (list Order) :=
  Returns [].

(** A gold futures family whose current contract is the December one. *)
Definition gold : FutureTicker :=
  {| family_name := "GC";
     get_current_specific_ticker := Returns "GCZ0";
     belongs_to_family := fun t => bool_decide (t ∈ ["GCQ0"; "GCV0"; "GCZ0"]) |}.

Definition position (t : string) (q : Z) : Position :=
  {| position_ticker := t; position_quantity := q |}.

(** A cycle without signals and without close orders; the only filter
    would fail if it were applied, and is skipped on the empty list. *)
Definition idle_world : @World unit :=
  {| signal_store := fun _ =>
       {| ticker := SpecificTicker "AAPL"; suggested_exposure := OUT;
          fraction_at_risk := 0.04%float |};
     rng := tt; random_log := []; broker_log := [] |}.

Definition failing_filter (orders : list Order) : Outcome (list Order) :=
  Raises (CollaboratorError "filter applied").

(** Two generators that keep to the contract: one draws the first [k]
    positions, the other the last [k]. *)
Definition draw_first (g : nat) (n k : nat) : list nat * nat := (seq 0 k, S g).

Definition draw_last (g : nat) (n k : nat) : list nat * nat := (seq (n - k) k, S g).

Definition seed_of (x : float) : nat := 0.

Definition signal_of (name : string) (e : Exposure) (far : float) : Signal :=
  {| ticker := SpecificTicker name; suggested_exposure := e; fraction_at_risk := far |}.

(** Object 0 is a signal with fraction at risk 0.01, object 1 one with
    0.05; no other signal matters. *)
Definition two_new_signals (r : Ref) : Signal :=
  match r with
  | 0 => signal_of "AAPL" LONG 0.01%float
  | _ => signal_of "MSFT" SHORT 0.05%float
  end.

Definition scenario_world : @World nat :=
  {| signal_store := two_new_signals; rng := 7; random_log := []; broker_log := [] |}.

(** Three signals, one of them for a ticker with an open position, and a
    cap of two: one candidate is suppressed, and a second run changes
    nothing. *)
Definition three_signals (r : Ref) : Signal :=
  match r with
  | 0 => signal_of "AAPL" LONG 0.05%float
  | 1 => signal_of "MSFT" LONG 0.01%float
  | _ => signal_of "IBM" SHORT 0.03%float
  end.

Definition three_signals_world (g : nat) : @World nat :=
  {| signal_store := three_signals; rng := g; random_log := []; broker_log := [] |}.

End Samples.

(** * execution_style.py: the methods of the styles *)

Module ExecutionStyleMethods.

(** What a style can be compared with: a style, or an object of another
    type. *)
Inductive PyObject : Type :=
| StyleObject (style : ExecutionStyle)
| OtherObject.

(** [self.__class__.__name__] *)
Definition class_name (self : ExecutionStyle) : string :=
  match self with
  | MarketOrder => "MarketOrder"
  | MarketOnCloseOrder => "MarketOnCloseOrder"
  | StopOrder _ => "StopOrder"
  end.

Section Builtins.
(** Python's [hash] of a string, of a float and of a tuple (a function of
    the hashes of its items), and the text an f-string gives a float. *)
Variable hash_str : string -> Z.
Variable hash_float : float -> Z.
Variable hash_tuple : list Z -> Z.
Variable str_float : float -> string.

Definition __str__ (self : ExecutionStyle) : string :=
  match self with
  | StopOrder stop_price =>
      class_name self +:+ " - stop price: " +:+ str_float stop_price
  | _ => class_name self
  end.

Definition __hash__ (self : ExecutionStyle) : Z :=
  match self with
  | StopOrder stop_price =>
      hash_tuple [hash_str (class_name self); hash_float stop_price]
  | _ => hash_str (class_name self)
  end.

End Builtins.

(** [self.__eq__(other)]; [other_is_self] is the answer of
    [other is self], which only [StopOrder.__eq__] asks. *)
Definition __eq__ (self : ExecutionStyle) (other_is_self : bool) (other : PyObject)
  : bool :=
  match self with
  | MarketOrder =>
      match other with
      | StyleObject MarketOrder => true
      | _ => false
      end
  | MarketOnCloseOrder =>
      match other with
      | StyleObject MarketOnCloseOrder => true
      | _ => false
      end
  | StopOrder stop_price =>
      if other_is_self then true
      else
        match other with
        | StyleObject (StopOrder other_stop_price) =>
            PrimFloat.eqb stop_price other_stop_price
        | _ => false
        end
  end.

End ExecutionStyleMethods.

(** * AlphaModelStrategy: a whole cycle *)

Module AlphaModelStrategyCycle.
Import AlphaModelStrategy.

Section Cycle.
Context {RngState : Type} {Model : Type}.
Variable random_seed : float -> RngState.
Variable random_draw : RngState -> nat -> nat -> list nat * RngState.
(** [self._max_open_positions]: [None] or a number. *)
Variable max_open_positions : option Z.
Variable use_stop_losses : bool.
Variable time_in_force : string.
Variable frequency : string.
Variable broker_positions : list Position.
Variable now_timestamp : float.
Variable size_signals :
  list Signal -> bool -> string -> string -> Outcome (list Order).
Variable generate_close_orders : Outcome (list Order).
Variable orders_filters : list (list Order -> Outcome (list Order)).
Variable broker_cancel_all_open_orders : Outcome unit.
Variable broker_place_orders : list Order -> Outcome unit.
(** [self._model_tickers_dict.items()], in the dict's order. *)
Variable model_tickers_dict : list (Model * list Ticker).
(** What iterating [set(tickers)] yields. *)
Variable iterate_set : list Ticker -> list Ticker.
(** [model.get_signal(ticker, current_exposure, now, frequency)], at the
    time and frequency of the cycle. *)
Variable get_signal : Model -> Ticker -> Exposure -> Outcome Signal.
(** Every signal a model returns is a new object; the objects created in
    the cycle get the identities [first_free], [first_free + 1], ... *)
Variable first_free : Ref.

(** [signals.append(signal)] for a new signal object. *)
Definition append_new_signal (signals : list Ref) (signal : Signal)
  : M (@World RngState) (list Ref) :=
  fun w =>
    let r := first_free + length signals in
    (Returns (signals ++ [r]),
     {| signal_store := fun r' => if Nat.eqb r' r then signal else signal_store w r';
        rng := rng w;
        random_log := random_log w;
        broker_log := broker_log w |}).

(** The body of the inner loop: the [try] block and its [except]. *)
Definition signal_for_ticker (model : Model) (t : Ticker) (signals : list Ref)
  : M (@World RngState) (list Ref) :=
  match (match _get_current_exposure t broker_positions with
         | Returns current_exposure => get_signal model t current_exposure
         | Raises e => Raises e
         end) with
  | Returns signal => append_new_signal signals signal
  | Raises NoValidTickerException => ret signals
  | Raises e => raise e
  end.

Fixpoint signals_for_tickers (model : Model) (tickers : list Ticker)
    (signals : list Ref) : M (@World RngState) (list Ref) :=
  match tickers with
  | [] => ret signals
  | t :: rest =>
      let* signals := signal_for_ticker model t signals in
      signals_for_tickers model rest signals
  end.

Fixpoint signals_for_models (items : list (Model * list Ticker))
    (signals : list Ref) : M (@World RngState) (list Ref) :=
  match items with
  | [] => ret signals
  | (model, tickers) :: rest =>
      let* signals := signals_for_tickers model (iterate_set tickers) signals in
      signals_for_models rest signals
  end.

Definition _calculate_signals : M (@World RngState) (list Ref) :=
  signals_for_models model_tickers_dict [].

Definition calculate_and_place_orders : M (@World RngState) unit :=
  let* signals := _calculate_signals in
  match max_open_positions with
  | Some max =>
      _adjust_number_of_open_positions random_seed random_draw max
        broker_positions now_timestamp signals ;;; ret tt
  | None => ret tt
  end ;;;
  _place_orders use_stop_losses time_in_force frequency size_signals
    generate_close_orders orders_filters broker_cancel_all_open_orders
    broker_place_orders signals.

End Cycle.

End AlphaModelStrategyCycle.

(** * Vocabulary and samples for a whole cycle *)

Module CycleVocabulary.
Import AlphaModelStrategy AlphaModelStrategyCycle.

Section Pairs.
Context {RngState : Type} {Model : Type}.
Variable broker_positions : list Position.
Variable model_tickers_dict : list (Model * list Ticker).
Variable iterate_set : list Ticker -> list Ticker.
Variable get_signal : Model -> Ticker -> Exposure -> Outcome Signal.
Variable first_free : Ref.

(** The (model, ticker) pairs in the order the two loops visit them. *)
Definition visited : list (Model * Ticker) :=
  flat_map (fun item => map (pair item.1) (iterate_set item.2)) model_tickers_dict.

(** What the [try] block computes for a pair. *)
Definition attempt (mt : Model * Ticker) : Outcome Signal :=
  match _get_current_exposure mt.2 broker_positions with
  | Returns current_exposure => get_signal mt.1 mt.2 current_exposure
  | Raises e => Raises e
  end.

(** The attempt gave a signal, or the exception the [except] catches. *)
Definition signal_or_skip (o : Outcome Signal) : Prop :=
  match o with
  | Returns _ => True
  | Raises NoValidTickerException => True
  | Raises _ => False
  end.

(** The signals the attempts give, in order. *)
Definition produced (pairs : list (Model * Ticker)) : list Signal :=
  omap (fun mt => match attempt mt with
                  | Returns signal => Some signal
                  | Raises _ => None
                  end) pairs.

(** The two loops as one loop over the pairs. *)
Fixpoint signals_for_pairs (pairs : list (Model * Ticker)) (signals : list Ref)
  : M (@World RngState) (list Ref) :=
  match pairs with
  | [] => ret signals
  | mt :: rest =>
      let* signals :=
        signal_for_ticker broker_positions get_signal first_free mt.1 mt.2 signals in
      signals_for_pairs rest signals
  end.

End Pairs.

(** Sample models: one that always answers, one without a valid ticker. *)
Inductive SampleModel : Type := Momentum | Expired.

Definition sample_get_signal (m : SampleModel) (t : Ticker) (e : Exposure)
  : Outcome Signal :=
  match m with
  | Momentum =>
      Returns {| ticker := t; suggested_exposure := LONG;
                 fraction_at_risk := 0.04%float |}
  | Expired => Raises NoValidTickerException
  end.

Definition sample_dict : list (SampleModel * list Ticker) :=
  [(Momentum, [SpecificTicker "AAPL"]);
   (Expired, [SpecificTicker "MSFT"]);
   (Momentum, [SpecificTicker "IBM"])].

Definition empty_world : @World unit :=
  {| signal_store := fun _ =>
       {| ticker := SpecificTicker "none"; suggested_exposure := OUT;
          fraction_at_risk := 0%float |};
     rng := tt; random_log := []; broker_log := [] |}.

Definition one_order : Order :=
  {| order_contract := "AAPL"; order_quantity := 10;
     order_execution_style := MarketOrder; order_time_in_force := "OPG" |}.

(** A random generator without state that draws the first positions. *)
Definition unit_seed (x : float) : unit := tt.

Definition unit_draw (g : unit) (n k : nat) : list nat * unit := (seq 0 k, tt).

(** A sizer that orders ten shares for every signal that is not OUT. *)
Definition sample_size_signals (signals : list Signal) (use_stop_losses : bool)
    (time_in_force frequency : string) : Outcome (list Order) :=
  Returns (omap (fun s =>
                   match suggested_exposure s, ticker s with
                   | OUT, _ => None
                   | _, SpecificTicker name =>
                       Some {| order_contract := name; order_quantity := 10;
                               order_execution_style := MarketOrder;
                               order_time_in_force := time_in_force |}
                   | _, FutureTickerOf f =>
                       Some {| order_contract := family_name f; order_quantity := 10;
                               order_execution_style := MarketOrder;
                               order_time_in_force := time_in_force |}
                   end) signals).

End CycleVocabulary.

(** * InitialRiskPositionSizer: the run-time type of the numbers *)

Module TypedOperands.
Import InitialRiskPositionSizer.

(** The run-time type of a number the sizer divides: Python's builtin
    [float], or [numpy.float64], which is a subclass of [float]. *)
Inductive FloatType : Type := builtin_float | numpy_float64.

(** [a / b] by the types of its operands.  Between two builtin floats it
    is [float.__truediv__], that is [py_truediv].  As soon as one operand
    is a [numpy.float64] numpy divides (its [__truediv__], or its
    [__rtruediv__], which Python tries first for an operand of a
    subclass): the IEEE quotient is returned, for a zero divisor too (with
    a RuntimeWarning under numpy's default error state), and nothing is
    raised. *)
Definition truediv (ta tb : FloatType) (a b : float) : Outcome float :=
  match ta, tb with
  | builtin_float, builtin_float => py_truediv a b
  | _, _ => Returns (PrimFloat.div a b)
  end.

Section Sizer.
(** [self._initial_risk] and its type. *)
Variable initial_risk : float.
Variable initial_risk_type : FloatType.
Variable target_percent_orders :
  Contract -> float -> ExecutionStyle -> Outcome (list Order).

(** [_generate_market_order], with the type of [signal.fraction_at_risk]
    given beside the signal. *)
Definition _generate_market_order (contract : Contract) (signal : Signal)
    (fraction_at_risk_type : FloatType)
  : M (list FactoryCall) (option Order) :=
  py_assert (is_finite_number initial_risk)
            "Initial risk has to be a finite number" ;;;
  py_assert (is_finite_number (fraction_at_risk signal))
            "fraction_at_risk has to be a finite number" ;;;
  let* target_percentage :=
    lift (truediv initial_risk_type fraction_at_risk_type
            initial_risk (fraction_at_risk signal)) in
  py_assert (is_finite_number target_percentage)
            "target_percentage has to be a finite number" ;;;
  let* market_order_list :=
    order_factory_target_percent_orders target_percent_orders
      contract target_percentage MarketOrder in
  if Nat.eqb (length market_order_list) 0 then ret None
  else
    py_assert (Nat.eqb (length market_order_list) 1)
              "Only one order should be generated" ;;;
    ret (head market_order_list).

End Sizer.

(** What a division by zero ends in, by the types of the operands. *)
Definition zero_divisor_error (ta tb : FloatType) : PyExn :=
  match ta, tb with
  | builtin_float, builtin_float => ZeroDivisionError "float division by zero"
  | _, _ => AssertionError "target_percentage has to be a finite number"
  end.

End TypedOperands.

(** * Properties of InitialRiskPositionSizer *)

Module InitialRiskPositionSizerFacts.
Import InitialRiskPositionSizer Vocabulary Samples.

Ltac run_sizer :=
  unfold _generate_market_order, _generate_stop_order,
    order_factory_target_percent_orders, order_factory_orders,
    bind, py_assert, lift, ret, raise; simpl.

Section Facts.
Variable initial_risk : float.
Variable target_percent_orders :
  Contract -> float -> ExecutionStyle -> Outcome (list Order).
Variable orders : Contract -> Z -> ExecutionStyle -> Outcome (list Order).
Variable _calculate_stop_price : Signal -> float.
Variable broker_positions : list (Contract * Z).

Lemma market_order_checks_pass contract signal log :
  is_finite_number initial_risk = true ->
  is_finite_number (fraction_at_risk signal) = true ->
  PrimFloat.eqb (fraction_at_risk signal) PrimFloat.zero = false ->
  is_finite_number (PrimFloat.div initial_risk (fraction_at_risk signal)) = true ->
  _generate_market_order initial_risk target_percent_orders contract signal log =
    (match target_percent_orders contract
             (PrimFloat.div initial_risk (fraction_at_risk signal)) MarketOrder with
     | Returns answer => single_order_or_none answer
     | Raises e => Raises e
     end,
     log ++ [target_percent_orders_call contract
               (PrimFloat.div initial_risk (fraction_at_risk signal)) MarketOrder]).
Proof.
  intros Hir Hfar Hnz Hq. run_sizer. unfold py_truediv.
  rewrite Hir, Hfar, Hnz. simpl. rewrite Hq. simpl.
  destruct (target_percent_orders _ _ _) as [[|o [|o' l]]|e]; reflexivity.
Qed.

Lemma market_order_quotient_not_finite contract signal log :
  is_finite_number initial_risk = true ->
  is_finite_number (fraction_at_risk signal) = true ->
  PrimFloat.eqb (fraction_at_risk signal) PrimFloat.zero = false ->
  is_finite_number (PrimFloat.div initial_risk (fraction_at_risk signal)) = false ->
  _generate_market_order initial_risk target_percent_orders contract signal log =
    (Raises (AssertionError "target_percentage has to be a finite number"), log).
Proof.
  intros Hir Hfar Hnz Hq. run_sizer. unfold py_truediv.
  rewrite Hir, Hfar, Hnz. simpl. rewrite Hq. reflexivity.
Qed.

Lemma stop_order_run contract signal market_order log :
  _generate_stop_order orders _calculate_stop_price broker_positions
    contract signal market_order log =
    (let requested :=
       (- match market_order with
          | Some mo =>
            _get_existing_position_quantity broker_positions contract
            + order_quantity mo
          | None => _get_existing_position_quantity broker_positions contract
          end)%Z in
     (match orders contract requested (StopOrder (_calculate_stop_price signal)) with
      | Returns answer => single_order_or_none answer
      | Raises e => Raises e
      end,
      log ++ [orders_call contract requested
                (StopOrder (_calculate_stop_price signal))])).
Proof.
  run_sizer.
  destruct (orders _ _ _) as [[|o [|o' l]]|e]; reflexivity.
Qed.

(** C1: the stop order asks the factory for the negative of the
    existing position quantity plus the market order's quantity (the
    existing quantity alone when there is no market order); that
    request flattens the resulting position and is no larger in
    magnitude than it. *)
Theorem stop_order_requests_negated_resulting_quantity
    contract signal market_order log :
  let resulting :=
    match market_order with
    | Some mo =>
        (_get_existing_position_quantity broker_positions contract
         + order_quantity mo)%Z
    | None => _get_existing_position_quantity broker_positions contract
    end in
  (_generate_stop_order orders _calculate_stop_price broker_positions
     contract signal market_order log).2 =
    log ++ [orders_call contract (- resulting)
              (StopOrder (_calculate_stop_price signal))]
  /\ (resulting + - resulting = 0)%Z
  /\ (Z.abs (- resulting) <= Z.abs resulting)%Z.
Proof.
  intros resulting. rewrite stop_order_run. simpl.
  split; [reflexivity | lia].
Qed.

(** The order returned is the one the factory built for that request. *)
Lemma stop_order_returned contract signal market_order log o :
  (_generate_stop_order orders _calculate_stop_price broker_positions
     contract signal market_order log).1 = Returns (Some o) ->
  orders contract
    (- match market_order with
       | Some mo =>
            _get_existing_position_quantity broker_positions contract
            + order_quantity mo
       | None => _get_existing_position_quantity broker_positions contract
       end)%Z
    (StopOrder (_calculate_stop_price signal)) = Returns [o].
Proof.
  rewrite stop_order_run. simpl.
  destruct (orders _ _ _) as [[|o1 [|o2 l]]|e]; simpl; congruence.
Qed.


Lemma target_percentage_passed contract signal log :
  is_finite_number initial_risk = true ->
  is_finite_number (fraction_at_risk signal) = true ->
  PrimFloat.eqb (fraction_at_risk signal) PrimFloat.zero = false ->
  (forall t,
     In t (targets_passed
            (_generate_market_order initial_risk target_percent_orders
               contract signal []).2) ->
     t = PrimFloat.div initial_risk (fraction_at_risk signal))
  /\ (is_finite_number (PrimFloat.div initial_risk (fraction_at_risk signal)) = true ->
      (_generate_market_order initial_risk target_percent_orders contract signal log).2 =
        log ++ [target_percent_orders_call contract
                  (PrimFloat.div initial_risk (fraction_at_risk signal))
                  MarketOrder]).
Proof.
  intros Hir Hfar Hnz.
  destruct (is_finite_number (PrimFloat.div initial_risk (fraction_at_risk signal)))
    eqn:Hq.
  - split.
    + rewrite market_order_checks_pass by assumption. simpl.
      intros t [<-|[]]. reflexivity.
    + intros _. rewrite market_order_checks_pass by assumption. reflexivity.
  - split; [|discriminate].
    rewrite market_order_quotient_not_finite by assumption. simpl. intros t [].
Qed.

(** C7 (amended): an answer of more than one order from the factory is
    an assertion failure in both generators; an empty answer makes the
    generator return [None], and a single order is returned as is. *)
Theorem factory_answer_cardinality contract signal market_order log answer :
  (is_finite_number initial_risk = true ->
   is_finite_number (fraction_at_risk signal) = true ->
   PrimFloat.eqb (fraction_at_risk signal) PrimFloat.zero = false ->
   is_finite_number (PrimFloat.div initial_risk (fraction_at_risk signal)) = true ->
   target_percent_orders contract
     (PrimFloat.div initial_risk (fraction_at_risk signal)) MarketOrder
     = Returns answer ->
   (_generate_market_order initial_risk target_percent_orders contract signal log).1 =
     match answer with
     | [] => Returns None
     | [o] => Returns (Some o)
     | _ :: _ :: _ => Raises (AssertionError "Only one order should be generated")
     end)
  /\ (orders contract
        (- match market_order with
           | Some mo =>
            _get_existing_position_quantity broker_positions contract
            + order_quantity mo
           | None => _get_existing_position_quantity broker_positions contract
           end)%Z
        (StopOrder (_calculate_stop_price signal)) = Returns answer ->
      (_generate_stop_order orders _calculate_stop_price broker_positions
     contract signal market_order log).1 =
        match answer with
        | [] => Returns None
        | [o] => Returns (Some o)
        | _ :: _ :: _ => Raises (AssertionError "Only one order should be generated")
        end).
Proof.
  split.
  - intros Hir Hfar Hnz Hq Hanswer.
    rewrite market_order_checks_pass by assumption. simpl.
    rewrite Hanswer. reflexivity.
  - intros Hanswer. rewrite stop_order_run. simpl.
    rewrite Hanswer. reflexivity.
Qed.

End Facts.

(** C9: with a finite initial risk and a finite, non-zero fraction at
    risk, any target percentage handed to the order factory is the
    quotient [initial_risk / fraction_at_risk], and it is handed over
    (once, with a market execution style) whenever that quotient is
    finite; for an initial risk of 0.02 and a fraction at risk of 0.04
    the target handed over is exactly 0.5. *)
Theorem target_percentage_is_risk_quotient
    initial_risk target_percent_orders contract signal log :
  is_finite_number initial_risk = true ->
  is_finite_number (fraction_at_risk signal) = true ->
  PrimFloat.eqb (fraction_at_risk signal) PrimFloat.zero = false ->
  (forall t,
     In t (targets_passed
             (_generate_market_order initial_risk target_percent_orders
                contract signal []).2) ->
     t = PrimFloat.div initial_risk (fraction_at_risk signal))
  /\ (is_finite_number (PrimFloat.div initial_risk (fraction_at_risk signal)) = true ->
      (_generate_market_order initial_risk target_percent_orders
         contract signal log).2 =
        log ++ [target_percent_orders_call contract
                  (PrimFloat.div initial_risk (fraction_at_risk signal))
                  MarketOrder])
  /\ (initial_risk = 0.02%float -> fraction_at_risk signal = 0.04%float ->
      (_generate_market_order initial_risk target_percent_orders
         contract signal log).2 =
        log ++ [target_percent_orders_call contract 0.5%float MarketOrder]).
Proof.
  intros Hir Hfar Hnz.
  pose proof (target_percentage_passed initial_risk target_percent_orders
                contract signal log Hir Hfar Hnz) as [Hall Hfin].
  split; [exact Hall|]. split; [exact Hfin|].
  intros Hr Hf. rewrite Hfin; rewrite Hr, Hf; reflexivity.
Qed.

Lemma target_percentage_is_risk_quotient_witness :
  is_finite_number 0.02%float = true
  /\ is_finite_number (fraction_at_risk (aapl_signal 0.04%float)) = true
  /\ (_generate_market_order 0.02%float one_order_factory "AAPL"
        (aapl_signal 0.04%float) []).2 =
       [target_percent_orders_call "AAPL" 0.5%float MarketOrder].
Proof.
  split; [reflexivity|]. split; [reflexivity|].
  apply (target_percentage_is_risk_quotient 0.02%float one_order_factory "AAPL"
           (aapl_signal 0.04%float) []); reflexivity.
Defined.

Lemma stop_order_requests_negated_resulting_quantity_example :
  _generate_stop_order one_order_factory (fun _ => 95%float) [("AAPL", 30%Z)]
    "AAPL" (aapl_signal 0.04%float)
    (Some {| order_contract := "AAPL"; order_quantity := 12;
             order_execution_style := MarketOrder; order_time_in_force := "OPG" |})
    []
  = (Returns (Some {| order_contract := "AAPL"; order_quantity := 10;
                      order_execution_style := StopOrder 95%float;
                      order_time_in_force := "OPG" |}),
     [orders_call "AAPL" (-42)%Z (StopOrder 95%float)]).
Proof. reflexivity. Qed.


(** Overflow of the quotient of two finite numbers is caught by the
    third assertion. *)
Lemma quotient_overflow_example :
  _generate_market_order 1e308%float one_order_factory "AAPL"
    (aapl_signal 1e-308%float) []
  = (Raises (AssertionError "target_percentage has to be a finite number"), []).
Proof. reflexivity. Qed.

(** C7 (as stated, refuted): when the factory answers with zero orders
    neither generator raises; each returns [None]. *)
Lemma empty_factory_answer_is_not_fatal :
  _generate_market_order 0.02%float empty_factory "AAPL" (aapl_signal 0.04%float) []
    = (Returns None, [target_percent_orders_call "AAPL" 0.5%float MarketOrder])
  /\ _generate_stop_order empty_factory (fun _ => 95%float) [("AAPL", 30%Z)]
       "AAPL" (aapl_signal 0.04%float) None []
     = (Returns None, [orders_call "AAPL" (-30)%Z (StopOrder 95%float)]).
Proof. split; reflexivity. Qed.

Lemma factory_answer_cardinality_witness :
  (_generate_market_order 0.02%float one_order_factory "AAPL"
     (aapl_signal 0.04%float) []).1
    = Returns (Some {| order_contract := "AAPL"; order_quantity := 10;
                       order_execution_style := MarketOrder;
                       order_time_in_force := "OPG" |})
  /\ (_generate_stop_order one_order_factory (fun _ => 95%float) [("AAPL", 30%Z)]
        "AAPL" (aapl_signal 0.04%float) None []).1
     = Returns (Some {| order_contract := "AAPL"; order_quantity := 10;
                        order_execution_style := StopOrder 95%float;
                        order_time_in_force := "OPG" |}).
Proof.
  split.
  - apply (proj1 (factory_answer_cardinality 0.02%float one_order_factory
                    one_order_factory (fun _ => 95%float) [("AAPL", 30%Z)]
                    "AAPL" (aapl_signal 0.04%float) None []
                    [{| order_contract := "AAPL"; order_quantity := 10;
                        order_execution_style := MarketOrder;
                        order_time_in_force := "OPG" |}])); reflexivity.
  - apply (proj2 (factory_answer_cardinality 0.02%float one_order_factory
                    one_order_factory (fun _ => 95%float) [("AAPL", 30%Z)]
                    "AAPL" (aapl_signal 0.04%float) None []
                    [{| order_contract := "AAPL"; order_quantity := 10;
                        order_execution_style := StopOrder 95%float;
                        order_time_in_force := "OPG" |}])); reflexivity.
Defined.

End InitialRiskPositionSizerFacts.

(** * Properties of AlphaModelStrategy: exposure reconciliation *)

Module ExposureFacts.
Import AlphaModelStrategy Vocabulary Samples.

Lemma ticker_to_quantity_of_snoc (l : list Position) (p : Position) :
  ticker_to_quantity_of (l ++ [p]) =
    <[position_ticker p := position_quantity p]> (ticker_to_quantity_of l).
Proof. unfold ticker_to_quantity_of. rewrite foldl_app. reflexivity. Qed.

Lemma ticker_to_quantity_of_dom (l : list Position) :
  dom (ticker_to_quantity_of l) = list_to_set (position_ticker <$> l).
Proof.
  induction l as [|p l IH] using rev_ind; [reflexivity|].
  rewrite ticker_to_quantity_of_snoc, dom_insert_L, IH, fmap_app, list_to_set_app_L.
  simpl. rewrite (right_id_L ∅ (∪)). apply (comm_L (∪)).
Qed.

Lemma ticker_to_quantity_of_absent (l : list Position) (t : string) :
  t ∉ position_ticker <$> l -> ticker_to_quantity_of l !! t = None.
Proof.
  intros Hnot. apply not_elem_of_dom. rewrite ticker_to_quantity_of_dom.
  rewrite elem_of_list_to_set. exact Hnot.
Qed.

Lemma ticker_to_quantity_of_size (l : list Position) :
  NoDup (position_ticker <$> l) ->
  size (ticker_to_quantity_of l) = length l.
Proof.
  intros Hnd. rewrite <- size_dom, ticker_to_quantity_of_dom.
  rewrite size_list_to_set by exact Hnd. apply length_fmap.
Qed.

Lemma ticker_to_quantity_of_lookup (l : list Position) (p : Position) :
  NoDup (position_ticker <$> l) -> p ∈ l ->
  ticker_to_quantity_of l !! position_ticker p = Some (position_quantity p).
Proof.
  induction l as [|q l IH] using rev_ind; intros Hnd Hin.
  - inversion Hin.
  - rewrite ticker_to_quantity_of_snoc.
    rewrite fmap_app in Hnd. apply NoDup_app in Hnd as (Hl & Hdisj & _).
    apply elem_of_app in Hin as [Hin|Hin].
    + rewrite lookup_insert_ne; [auto|].
      intros Heq. apply (Hdisj (position_ticker p)).
      * apply list_elem_of_fmap. eauto.
      * rewrite <- Heq. simpl. left.
    + apply list_elem_of_singleton in Hin as ->. apply lookup_insert_eq.
Qed.

(** A snapshot with two positions for one exact ticker fails the first
    assertion. *)
Lemma duplicate_ticker_example :
  _get_current_exposure (SpecificTicker "AAPL")
    [{| position_ticker := "AAPL"; position_quantity := 5 |};
     {| position_ticker := "AAPL"; position_quantity := 7 |}]
  = Raises (AssertionError "There should be max 1 position open per ticker").
Proof. vm_compute. reflexivity. Qed.

(** Exposure of a plain ticker: the sign of its position's quantity. *)
Lemma exposure_of_specific_ticker (name : string) (positions : list Position) :
  NoDup (position_ticker <$> positions) ->
  _get_current_exposure (SpecificTicker name) positions =
    Returns (Exposure_of_sign
               (default 0%Z (ticker_to_quantity_of positions !! name))).
Proof.
  intros Hnd. unfold _get_current_exposure.
  rewrite ticker_to_quantity_of_size by exact Hnd.
  rewrite Nat.eqb_refl. reflexivity.
Qed.

(** The quantity the code reads for the current specific ticker. *)
Lemma current_quantity_of_position (positions : list Position) (p : Position) :
  NoDup (position_ticker <$> positions) -> p ∈ positions ->
  default 0%Z (ticker_to_quantity_of positions !! position_ticker p)
  = position_quantity p.
Proof.
  intros Hnd Hin. rewrite (ticker_to_quantity_of_lookup _ _ Hnd Hin). reflexivity.
Qed.

Lemma current_quantity_absent (positions : list Position) (t : string) :
  t ∉ position_ticker <$> positions ->
  default 0%Z (ticker_to_quantity_of positions !! t) = 0%Z.
Proof. intros H. rewrite ticker_to_quantity_of_absent by exact H. reflexivity. Qed.

Lemma current_contract_quantity_spec (current : string) (positions : list Position) :
  NoDup (position_ticker <$> positions) ->
  default 0%Z (ticker_to_quantity_of positions !! current)
  = current_contract_quantity current positions.
Proof.
  intros Hnd. unfold current_contract_quantity.
  destruct (List.find _ positions) as [p|] eqn:Hfind.
  - apply find_some in Hfind as [Hin Hp].
    apply bool_decide_eq_true in Hp. subst current.
    apply current_quantity_of_position; [exact Hnd|].
    apply list_elem_of_In. exact Hin.
  - apply current_quantity_absent. intros Hin.
    apply list_elem_of_fmap in Hin as (p & -> & Hp).
    apply list_elem_of_In in Hp.
    pose proof (find_none _ _ Hfind p Hp) as Hn. simpl in Hn.
    apply bool_decide_eq_false in Hn. congruence.
Qed.

Lemma exposure_of_future_ticker_run (f : FutureTicker) (current : string)
    (positions : list Position) :
  get_current_specific_ticker f = Returns current ->
  NoDup (position_ticker <$> positions) ->
  _get_current_exposure (FutureTickerOf f) positions =
    let q := current_contract_quantity current positions in
    if (q =? 0)%Z then
      match List.filter (fun p => belongs_to_family f (position_ticker p)) positions with
      | [] => Returns OUT
      | [p] => Returns (Exposure_of_sign (position_quantity p))
      | p :: p' :: rest =>
          Raises (AssertionError
            ("There should be no more then 1 position open for an already expired contract for a future ticker. Detected positions open for the following contracts: "
             +:+ String.concat ", " (position_ticker <$> p :: p' :: rest) +:+ "."))
      end
    else Returns (Exposure_of_sign q).
Proof.
  intros Hcur Hnd. unfold _get_current_exposure.
  rewrite ticker_to_quantity_of_size by exact Hnd.
  rewrite Nat.eqb_refl, Hcur. simpl.
  rewrite current_contract_quantity_spec by exact Hnd.
  destruct (_ =? 0)%Z; [|reflexivity].
  destruct (List.filter _ positions) as [|p [|p' rest]]; reflexivity.
Qed.

(** C5 (as stated, refuted): with positions open at once on two specific
    contracts of the family, one of them the current contract, no error is
    raised: the exposure is that of the current contract. *)
Lemma two_family_positions_without_error :
  belongs_to_family gold "GCQ0" = true
  /\ belongs_to_family gold "GCZ0" = true
  /\ _get_current_exposure (FutureTickerOf gold)
       [position "GCQ0" (-3); position "GCZ0" 5] = Returns LONG.
Proof. vm_compute. auto. Qed.

(** C5 (amended): for a future ticker whose current specific contract is
    [current], on a snapshot with one position per ticker: a non-zero
    quantity on the current contract decides the exposure by its sign,
    whatever other contracts of the family are held; with a zero (or no)
    quantity there, the positions of the family are scanned, a single
    match decides the exposure by its sign, no match gives OUT, and more
    than one match raises an assertion error. *)
Theorem exposure_of_future_ticker (f : FutureTicker) (current : string)
    (positions : list Position) :
  get_current_specific_ticker f = Returns current ->
  NoDup (position_ticker <$> positions) ->
  let q := current_contract_quantity current positions in
  let matching_positions :=
    List.filter (fun p => belongs_to_family f (position_ticker p)) positions in
  let result := _get_current_exposure (FutureTickerOf f) positions in
  (q <> 0%Z -> result = Returns (Exposure_of_sign q))
  /\ (q = 0%Z -> matching_positions = [] -> result = Returns OUT)
  /\ (q = 0%Z -> forall p, matching_positions = [p] ->
      result = Returns (Exposure_of_sign (position_quantity p)))
  /\ (q = 0%Z -> 1 < length matching_positions ->
      exists msg, result = Raises (AssertionError msg)).
Proof.
  intros Hcur Hnd q matching_positions result.
  subst result. rewrite (exposure_of_future_ticker_run f current positions Hcur Hnd).
  fold q. fold matching_positions. simpl.
  repeat split.
  - intros Hq. apply Z.eqb_neq in Hq. rewrite Hq. reflexivity.
  - intros -> ->. reflexivity.
  - intros -> p ->. reflexivity.
  - intros -> Hlen.
    destruct matching_positions as [|p [|p' rest]]; simpl in Hlen; try lia.
    eauto.
Qed.

Lemma exposure_of_future_ticker_witness :
  get_current_specific_ticker gold = Returns "GCZ0"
  /\ current_contract_quantity "GCZ0" [position "GCQ0" (-3); position "AAPL" 8] = 0%Z
  /\ _get_current_exposure (FutureTickerOf gold)
       [position "GCQ0" (-3); position "AAPL" 8] = Returns SHORT.
Proof.
  split; [reflexivity|]. split; [reflexivity|].
  assert (Hnd : NoDup (position_ticker <$> [position "GCQ0" (-3); position "AAPL" 8])).
  { apply (bool_decide_unpack _). vm_compute. exact I. }
  pose proof (exposure_of_future_ticker gold "GCZ0"
                [position "GCQ0" (-3); position "AAPL" 8] eq_refl Hnd) as H.
  cbv zeta in H. destruct H as (_ & _ & H & _).
  apply (H eq_refl (position "GCQ0" (-3)) eq_refl).
Defined.

(** Two stranded positions of the family and none on the current contract:
    the scan finds both and the computation fails. *)
Lemma two_stranded_positions_example :
  exists msg,
    _get_current_exposure (FutureTickerOf gold)
      [position "GCQ0" (-3); position "GCV0" 5]
    = Raises (AssertionError msg).
Proof. eexists. vm_compute. reflexivity. Qed.

End ExposureFacts.

(** * Properties of AlphaModelStrategy: submission *)

Module SubmissionFacts.
Import AlphaModelStrategy Vocabulary Samples.

Section Facts.
Context {RngState : Type}.
Variable use_stop_losses : bool.
Variable time_in_force : string.
Variable frequency : string.
Variable size_signals :
  list Signal -> bool -> string -> string -> Outcome (list Order).
Variable generate_close_orders : Outcome (list Order).
Variable orders_filters : list (list Order -> Outcome (list Order)).
Variable broker_cancel_all_open_orders : Outcome unit.
Variable broker_place_orders : list Order -> Outcome unit.

(** Building the order list touches neither the broker nor the signals. *)
Lemma orders_to_submit_state (signals : list Ref) (w : @World RngState) :
  (orders_to_submit use_stop_losses time_in_force frequency size_signals
     generate_close_orders orders_filters signals w).2 = w.
Proof.
  unfold orders_to_submit, bind, lift. simpl.
  destruct (size_signals _ _ _ _); simpl; [|reflexivity].
  destruct generate_close_orders; reflexivity.
Qed.

(** A cycle that fails before submission makes no broker call. *)
Lemma failure_before_submission (signals : list Ref) (w : @World RngState) e :
  (orders_to_submit use_stop_losses time_in_force frequency size_signals
     generate_close_orders orders_filters signals w).1 = Raises e ->
  _place_orders use_stop_losses time_in_force frequency size_signals
    generate_close_orders orders_filters broker_cancel_all_open_orders
    broker_place_orders signals w = (Raises e, w).
Proof.
  intros Hfail. unfold _place_orders, bind.
  pose proof (orders_to_submit_state signals w) as Hst.
  destruct (orders_to_submit _ _ _ _ _ _ _ _) as [[orders|e'] w']; simpl in *.
  - discriminate.
  - congruence.
Qed.

Lemma submission_run (signals : list Ref) (w : @World RngState) orders :
  (orders_to_submit use_stop_losses time_in_force frequency size_signals
     generate_close_orders orders_filters signals w).1 = Returns orders ->
  _place_orders use_stop_losses time_in_force frequency size_signals
    generate_close_orders orders_filters broker_cancel_all_open_orders
    broker_place_orders signals w =
  match broker_cancel_all_open_orders with
  | Returns _ =>
      (broker_place_orders orders,
       {| signal_store := signal_store w; rng := rng w;
          random_log := random_log w;
          broker_log := (broker_log w ++ [cancel_all_open_orders_call])
                          ++ [place_orders_call orders] |})
  | Raises e =>
      (Raises e,
       {| signal_store := signal_store w; rng := rng w;
          random_log := random_log w;
          broker_log := broker_log w ++ [cancel_all_open_orders_call] |})
  end.
Proof.
  intros Hok. unfold _place_orders, bind, broker_call.
  pose proof (orders_to_submit_state signals w) as Hst.
  destruct (orders_to_submit _ _ _ _ _ _ _ _) as [[orders'|e'] w']; simpl in *.
  - inversion Hok; subst.
    destruct broker_cancel_all_open_orders; reflexivity.
  - discriminate.
Qed.

(** C6: in a cycle that reaches submission (the order list was built) and
    whose cancellation returns, the broker receives exactly two calls:
    [cancel_all_open_orders] first, then [place_orders] with the order
    list, whatever that list is, the empty list included. *)
Theorem cancel_all_then_place_orders (signals : list Ref) (w : @World RngState) orders :
  (orders_to_submit use_stop_losses time_in_force frequency size_signals
     generate_close_orders orders_filters signals w).1 = Returns orders ->
  broker_cancel_all_open_orders = Returns tt ->
  broker_log
    (_place_orders use_stop_losses time_in_force frequency size_signals
       generate_close_orders orders_filters broker_cancel_all_open_orders
       broker_place_orders signals w).2
  = broker_log w ++ [cancel_all_open_orders_call; place_orders_call orders].
Proof.
  intros Hok Hcancel. rewrite (submission_run signals w orders Hok), Hcancel.
  simpl. rewrite <- app_assoc. reflexivity.
Qed.

End Facts.

Lemma cancel_all_then_place_orders_witness :
  broker_log
    (_place_orders true "OPG" "DAILY" (fun _ _ _ _ => Returns []) (Returns [])
       [failing_filter] (Returns tt) (fun _ => Returns tt) [] idle_world).2
  = [cancel_all_open_orders_call; place_orders_call []].
Proof.
  apply (cancel_all_then_place_orders true "OPG" "DAILY" (fun _ _ _ _ => Returns [])
           (Returns []) [failing_filter] (Returns tt) (fun _ => Returns tt)
           [] idle_world []); reflexivity.
Defined.

End SubmissionFacts.

(** * Properties of AlphaModelStrategy: the cap on open positions *)

Module CapFacts.
Import AlphaModelStrategy Vocabulary Samples.

(** ** Sorting *)

Lemma insert_by_key_Permutation {A} (key : A -> float) (x : A) (l : list A) :
  insert_by_key key x l ≡ₚ x :: l.
Proof.
  induction l as [|y l IH]; simpl; [reflexivity|].
  destruct (PrimFloat.ltb _ _); [|reflexivity].
  rewrite IH. apply perm_swap.
Qed.

Lemma sorted_Permutation {A} (l : list A) (key : A -> float) : sorted l key ≡ₚ l.
Proof.
  unfold sorted. induction l as [|x l IH]; simpl; [reflexivity|].
  rewrite insert_by_key_Permutation, IH. reflexivity.
Qed.

Lemma sorted_length {A} (l : list A) (key : A -> float) :
  length (sorted l key) = length l.
Proof. apply Permutation_length, sorted_Permutation. Qed.

Lemma filter_Permutation {A} (f : A -> bool) (l l' : list A) :
  l ≡ₚ l' -> List.filter f l ≡ₚ List.filter f l'.
Proof.
  induction 1 as [|x l l' _ IH|x y l|l l' l'' _ IH1 _ IH2]; simpl.
  - reflexivity.
  - destruct (f x); [constructor|]; exact IH.
  - destruct (f x), (f y); try reflexivity. apply perm_swap.
  - etransitivity; eassumption.
Qed.

Lemma filter_filter_andb {A} (f g : A -> bool) (l : list A) :
  List.filter f (List.filter g l) = List.filter (fun x => g x && f x) l.
Proof.
  induction l as [|x l IH]; simpl; [reflexivity|].
  destruct (g x); simpl; [destruct (f x)|]; rewrite ?IH; reflexivity.
Qed.

Lemma filter_split_length {A} (f : A -> bool) (l : list A) :
  length (List.filter f l) + length (List.filter (fun x => negb (f x)) l) = length l.
Proof.
  induction l as [|x l IH]; simpl; [reflexivity|].
  destruct (f x); simpl; lia.
Qed.

(** ** Counting the elements hit by distinct positions *)

Lemma length_without_zero (D : list nat) :
  NoDup D ->
  length D <= length (List.filter (fun i => negb (Nat.eqb i 0)) D)
              + (if bool_decide (0 ∈ D) then 1 else 0).
Proof.
  induction 1 as [|i D Hni Hnd IH]; [simpl; lia|].
  destruct i as [|i]; cbn [List.filter negb Nat.eqb length].
  - rewrite bool_decide_true by left.
    rewrite bool_decide_false in IH by exact Hni. lia.
  - rewrite (bool_decide_ext (0 ∈ S i :: D) (0 ∈ D)).
    + cbn [length]. lia.
    + rewrite elem_of_cons. split; [intros [Heq|Hin]; [discriminate|exact Hin]|auto].
Qed.

Lemma hits_at_distinct_positions {A} (P : A -> bool) (pop : list A) (D : list nat) :
  NoDup D ->
  (forall i, i ∈ D -> exists x, pop !! i = Some x /\ P x = true) ->
  length D <= length (List.filter P pop).
Proof.
  revert D. induction pop as [|x pop IH]; intros D Hnd Hhit.
  - destruct D as [|i D]; [simpl; lia|].
    destruct (Hhit i) as (y & Hy & _); [left|]. discriminate.
  - set (D' := Nat.pred <$> List.filter (fun i => negb (Nat.eqb i 0)) D).
    assert (HD' : forall j, j ∈ D' -> S j ∈ D).
    { intros j Hj. apply list_elem_of_fmap in Hj as (i & -> & Hi).
      apply list_elem_of_In, filter_In in Hi as [Hi Hnz].
      apply negb_true_iff, Nat.eqb_neq in Hnz.
      replace (S (Nat.pred i)) with i by lia.
      apply list_elem_of_In. exact Hi. }
    assert (Hnd' : NoDup D').
    { apply NoDup_fmap_2_strong.
      - intros i j Hi Hj Heq.
        apply list_elem_of_In, filter_In in Hi as [_ Hi].
        apply list_elem_of_In, filter_In in Hj as [_ Hj].
        apply negb_true_iff, Nat.eqb_neq in Hi, Hj. lia.
      - apply NoDup_ListNoDup, List.NoDup_filter, NoDup_ListNoDup. exact Hnd. }
    assert (Hlen : length D' <= length (List.filter P pop)).
    { apply IH; [exact Hnd'|]. intros j Hj. apply (Hhit (S j)), HD', Hj. }
    pose proof (length_without_zero D Hnd) as Hz.
    unfold D' in Hlen. rewrite length_fmap in Hlen.
    cbn [List.filter]. destruct (bool_decide (0 ∈ D)) eqn:H0.
    + apply bool_decide_eq_true in H0.
      destruct (Hhit 0 H0) as (y & Hy & HP). simpl in Hy. inversion Hy; subst y.
      rewrite HP. simpl. lia.
    + destruct (P x); simpl; lia.
Qed.

(** ** What a run of the cap enforcement does *)

Section Run.
Context {RngState : Type}.
Variable random_seed : float -> RngState.
Variable random_draw : RngState -> nat -> nat -> list nat * RngState.
Variable max_open_positions : Z.
Variable broker_positions : list Position.
Variable now_timestamp : float.

Lemma for_each_assign (e : Exposure) (l : list Ref) (w : @World RngState) :
  for_each l (fun s => set_suggested_exposure s e) w =
    (Returns tt,
     {| signal_store := foldl (assign_exposure e) (signal_store w) l;
        rng := rng w; random_log := random_log w; broker_log := broker_log w |}).
Proof.
  revert w. induction l as [|s l IH]; intros w.
  - destruct w. reflexivity.
  - simpl. unfold bind at 1. unfold set_suggested_exposure at 1.
    rewrite IH. reflexivity.
Qed.

Lemma foldl_assign_out (l : list Ref) (h : Ref -> Signal) (r : Ref) :
  foldl (assign_exposure OUT) h l r =
    if bool_decide (r ∈ l) then with_suggested_exposure (h r) OUT else h r.
Proof.
  revert h. induction l as [|s l IH]; intros h; [reflexivity|].
  simpl. rewrite IH. unfold assign_exposure.
  destruct (Nat.eqb_spec r s) as [->|Hne].
  - rewrite (bool_decide_true (s ∈ s :: l)) by left.
    destruct (bool_decide (s ∈ l)); reflexivity.
  - rewrite (bool_decide_ext (r ∈ s :: l) (r ∈ l)); [reflexivity|].
    rewrite elem_of_cons. split; [intros [?|?]; [contradiction|assumption]|auto].
Qed.

(** The three ways a run can go: nothing to do; more to suppress than
    there are candidates ([random.sample] raises); some candidates
    suppressed. *)
Lemma adjust_run (signals : list Ref) (w : @World RngState) :
  let new_positions_signals := candidates broker_positions (signal_store w) signals in
  let population :=
    sorted new_positions_signals (fun r => fraction_at_risk (signal_store w r)) in
  let k :=
    (Z.of_nat (length new_positions_signals)
     + Z.of_nat (length (opened broker_positions (signal_store w) signals))
     - max_open_positions)%Z in
  _adjust_number_of_open_positions random_seed random_draw max_open_positions
    broker_positions now_timestamp signals w =
  if (0 <? k)%Z then
    if (Z.of_nat (length new_positions_signals) <? k)%Z then
      (Raises (ValueError "Sample larger than population or is negative"),
       {| signal_store := signal_store w;
          rng := random_seed now_timestamp;
          random_log := (random_log w ++ [seed_call now_timestamp])
                          ++ [sample_call population k];
          broker_log := broker_log w |})
    else
      let drawn :=
        random_draw (random_seed now_timestamp) (length population) (Z.to_nat k) in
      (Returns signals,
       {| signal_store :=
            foldl (assign_exposure OUT) (signal_store w)
                  (omap (fun i => population !! i) drawn.1);
          rng := drawn.2;
          random_log := (random_log w ++ [seed_call now_timestamp])
                          ++ [sample_call population k];
          broker_log := broker_log w |})
  else (Returns signals, w).
Proof.
  intros new_positions_signals population k.
  unfold _adjust_number_of_open_positions.
  fold (open_tickers broker_positions).
  fold (opened broker_positions (signal_store w) signals).
  fold (candidates broker_positions (signal_store w) signals).
  fold new_positions_signals. fold population.
  set (number := (Z.of_nat (length new_positions_signals)
                  + Z.of_nat (length (opened broker_positions (signal_store w) signals)))%Z).
  replace (number - max_open_positions)%Z with k by (subst k number; lia).
  replace (max_open_positions <? number)%Z with (0 <? k)%Z
    by (subst k number; destruct (Z.ltb_spec 0 (Z.of_nat (length new_positions_signals)
          + Z.of_nat (length (opened broker_positions (signal_store w) signals))
          - max_open_positions)), (Z.ltb_spec max_open_positions
          (Z.of_nat (length new_positions_signals)
          + Z.of_nat (length (opened broker_positions (signal_store w) signals))));
          try reflexivity; lia).
  destruct (Z.ltb_spec 0 k) as [Hk|Hk]; [|reflexivity].
  unfold bind at 1. unfold bind at 1. unfold seed at 1. unfold bind at 1.
  unfold sample at 1. cbn [signal_store rng random_log broker_log].
  replace (k <? 0)%Z with false by (symmetry; apply Z.ltb_ge; lia).
  cbn [orb]. unfold population at 1. rewrite sorted_length. fold population.
  destruct (Z.ltb_spec (Z.of_nat (length new_positions_signals)) k); [reflexivity|].
  rewrite for_each_assign. reflexivity.
Qed.

Lemma drawn_elements_are_candidates (signals : list Ref) (h : Ref -> Signal)
    (D : list nat) (r : Ref) :
  r ∈ omap (fun i =>
              sorted (candidates broker_positions h signals)
                     (fun r => fraction_at_risk (h r)) !! i) D ->
  r ∈ signals /\ is_new_positions_signal (open_tickers broker_positions) (h r) = true.
Proof.
  intros Hin. apply list_elem_of_omap in Hin as (i & _ & Hi).
  apply list_elem_of_lookup_2 in Hi.
  rewrite sorted_Permutation in Hi.
  apply list_elem_of_In, filter_In in Hi as [Hi Hnew].
  split; [apply list_elem_of_In; exact Hi|exact Hnew].
Qed.

Lemma new_is_not_open (tickers : gset string) (s : Signal) :
  is_new_positions_signal tickers s = true ->
  is_open_positions_signal tickers s = false.
Proof.
  unfold is_new_positions_signal, is_open_positions_signal.
  intros H. apply andb_true_iff in H as [H _]. apply negb_true_iff in H. exact H.
Qed.

(** C2: a run of the cap enforcement returns the very list it was given
    (or raises from [random.sample], leaving every signal as it was); the
    only signals whose attributes change are signals of the list that
    would open a new position (ticker without an open position, suggested
    exposure not OUT), and the change is that their suggested exposure
    becomes OUT; a signal whose ticker has an open position is never
    touched. *)
Theorem cap_suppresses_only_new_position_signals
    (signals : list Ref) (w : @World RngState) :
  let run :=
    _adjust_number_of_open_positions random_seed random_draw max_open_positions
      broker_positions now_timestamp signals w in
  (run.1 = Returns signals
   \/ (exists msg, run.1 = Raises (ValueError msg))
       /\ signal_store run.2 = signal_store w)
  /\ (forall r,
        signal_store run.2 r = signal_store w r
        \/ (r ∈ signals
            /\ is_new_positions_signal
                 (open_tickers broker_positions) (signal_store w r) = true
            /\ signal_store run.2 r
               = with_suggested_exposure (signal_store w r) OUT))
  /\ (forall r,
        is_open_positions_signal
          (open_tickers broker_positions) (signal_store w r) = true ->
        signal_store run.2 r = signal_store w r).
Proof.
  intros run.
  assert (Hstore : forall r,
             signal_store run.2 r = signal_store w r
             \/ (r ∈ signals
                 /\ is_new_positions_signal
                      (open_tickers broker_positions) (signal_store w r) = true
                 /\ signal_store run.2 r
                    = with_suggested_exposure (signal_store w r) OUT)).
  { intros r. subst run. rewrite adjust_run.
    destruct (_ <? _)%Z; [|left; reflexivity].
    destruct (_ <? _)%Z; [left; reflexivity|].
    cbn [snd signal_store]. rewrite foldl_assign_out.
    destruct (bool_decide _) eqn:Hin; [|left; reflexivity].
    apply bool_decide_eq_true, drawn_elements_are_candidates in Hin as [Hin Hnew].
    right. auto. }
  split; [|split].
  - subst run. rewrite adjust_run.
    destruct (_ <? _)%Z; [|left; reflexivity].
    destruct (_ <? _)%Z; [right; split; [eexists|]; reflexivity|left; reflexivity].
  - exact Hstore.
  - intros r Hopen. destruct (Hstore r) as [H|(_ & Hnew & _)]; [exact H|].
    apply new_is_not_open in Hnew. congruence.
Qed.

(** ** Determinism and idempotence *)

Lemma suppressed_nothing (h : Ref -> Signal) (signals : list Ref) :
  suppressed h h signals = [].
Proof.
  unfold suppressed. induction signals as [|r l IH]; simpl; [reflexivity|].
  destruct (bool_decide _); simpl; exact IH.
Qed.

Lemma opened_after_assign (h : Ref -> Signal) (chosen signals : list Ref) :
  opened broker_positions (foldl (assign_exposure OUT) h chosen) signals
  = opened broker_positions h signals.
Proof.
  unfold opened. apply filter_ext. intros r. rewrite foldl_assign_out.
  destruct (bool_decide _); reflexivity.
Qed.

Lemma candidates_after_assign (h : Ref -> Signal) (chosen signals : list Ref) :
  candidates broker_positions (foldl (assign_exposure OUT) h chosen) signals
  = List.filter (fun r => negb (bool_decide (r ∈ chosen)))
                (candidates broker_positions h signals).
Proof.
  unfold candidates. rewrite filter_filter_andb. apply filter_ext. intros r.
  rewrite foldl_assign_out. destruct (bool_decide (r ∈ chosen)).
  - unfold is_new_positions_signal. simpl.
    rewrite andb_false_r, andb_false_r. reflexivity.
  - rewrite andb_true_r. reflexivity.
Qed.

(** After [k] distinct positions of the sorted candidates were set to OUT,
    at most [n - k] candidates remain. *)
Lemma candidates_left (h : Ref -> Signal) (signals : list Ref) (D : list nat) :
  let population :=
    sorted (candidates broker_positions h signals) (fun r => fraction_at_risk (h r)) in
  NoDup D -> Forall (fun i => i < length population) D ->
  length (candidates broker_positions
            (foldl (assign_exposure OUT) h (omap (fun i => population !! i) D))
            signals)
  + length D <= length (candidates broker_positions h signals).
Proof.
  intros population Hnd Hlt.
  set (chosen := omap (fun i => population !! i) D).
  rewrite candidates_after_assign.
  rewrite <- (Permutation_length
                (filter_Permutation _ _ _ (sorted_Permutation
                   (candidates broker_positions h signals)
                   (fun r => fraction_at_risk (h r))))).
  fold population.
  pose proof (filter_split_length (fun r => bool_decide (r ∈ chosen)) population) as Hsplit.
  assert (Hhits : length D <= length (List.filter (fun r => bool_decide (r ∈ chosen))
                                                  population)).
  { apply hits_at_distinct_positions; [exact Hnd|].
    intros i Hi. rewrite Forall_forall in Hlt.
    destruct (lookup_lt_is_Some_2 population i (Hlt i Hi)) as [x Hx].
    exists x. split; [exact Hx|]. apply bool_decide_eq_true.
    apply list_elem_of_omap. exists i. auto. }
  rewrite <- (sorted_length (candidates broker_positions h signals)
                (fun r => fraction_at_risk (h r))).
  fold population. lia.
Qed.

Lemma adjust_deterministic (signals : list Ref) (w1 w2 : @World RngState) :
  signal_store w1 = signal_store w2 ->
  (_adjust_number_of_open_positions random_seed random_draw max_open_positions
     broker_positions now_timestamp signals w1).1
  = (_adjust_number_of_open_positions random_seed random_draw max_open_positions
       broker_positions now_timestamp signals w2).1
  /\ signal_store
       (_adjust_number_of_open_positions random_seed random_draw max_open_positions
          broker_positions now_timestamp signals w1).2
     = signal_store
         (_adjust_number_of_open_positions random_seed random_draw max_open_positions
            broker_positions now_timestamp signals w2).2.
Proof.
  intros Heq. rewrite !adjust_run. rewrite <- Heq.
  destruct (_ <? _)%Z; [|split; [reflexivity|exact Heq]].
  destruct (_ <? _)%Z; split; reflexivity.
Qed.

Lemma adjust_idempotent (signals : list Ref) (w : @World RngState) :
  draw_contract random_draw ->
  let w1 :=
    (_adjust_number_of_open_positions random_seed random_draw max_open_positions
       broker_positions now_timestamp signals w).2 in
  signal_store
    (_adjust_number_of_open_positions random_seed random_draw max_open_positions
       broker_positions now_timestamp signals w1).2
  = signal_store w1.
Proof.
  intros Hdraw w1.
  pose proof (adjust_run signals w) as Hrun. cbv zeta in Hrun.
  set (n := length (candidates broker_positions (signal_store w) signals)) in *.
  set (o := length (opened broker_positions (signal_store w) signals)) in *.
  set (k := (Z.of_nat n + Z.of_nat o - max_open_positions)%Z) in *.
  destruct (Z.ltb_spec 0 k) as [Hk|Hk].
  - destruct (Z.ltb_spec (Z.of_nat n) k) as [Hn|Hn].
    + (* [random.sample] raised: the store is as before, and so is the run *)
      subst w1. rewrite Hrun. cbn [snd].
      rewrite adjust_run. cbn [signal_store].
      fold n o k.
      destruct (Z.ltb_spec 0 k); [|lia].
      destruct (Z.ltb_spec (Z.of_nat n) k); [reflexivity|lia].
    + (* some candidates were suppressed: the count now fits the cap *)
      subst w1. rewrite Hrun. cbn [snd].
      rewrite adjust_run. cbn [signal_store].
      rewrite opened_after_assign. fold o.
      set (population := sorted (candidates broker_positions (signal_store w) signals)
                                (fun r => fraction_at_risk (signal_store w r))) in *.
      assert (Hlen : length population = n) by apply sorted_length.
      destruct (Hdraw (random_seed now_timestamp) (length population) (Z.to_nat k))
        as (HDlen & HDnd & HDlt); [lia|].
      pose proof (candidates_left (signal_store w) signals _ HDnd HDlt) as Hleft.
      cbv zeta in Hleft. fold population in Hleft. fold n in Hleft.
      rewrite HDlen in Hleft.
      match goal with
      | |- context [(0 <? ?k1)%Z] => destruct (Z.ltb_spec 0 k1) as [Hk1|Hk1]
      end; [lia|reflexivity].
  - subst w1. rewrite Hrun. cbn [snd]. rewrite Hrun. reflexivity.
Qed.

(** C3: with the same signals and the same cycle timestamp, two runs of
    the cap enforcement end alike and suppress the same signals, whatever
    state the random generator was in before; and a run on the outcome of
    a run suppresses nothing more. *)
Theorem cap_enforcement_deterministic_and_idempotent
    (signals : list Ref) (w w' : @World RngState) :
  draw_contract random_draw ->
  signal_store w' = signal_store w ->
  let adjust :=
    _adjust_number_of_open_positions random_seed random_draw max_open_positions
      broker_positions now_timestamp signals in
  ((adjust w').1 = (adjust w).1
   /\ signal_store (adjust w').2 = signal_store (adjust w).2
   /\ suppressed (signal_store w') (signal_store (adjust w').2) signals
      = suppressed (signal_store w) (signal_store (adjust w).2) signals)
  /\ (signal_store (adjust (adjust w).2).2 = signal_store (adjust w).2
      /\ suppressed (signal_store (adjust w).2)
                    (signal_store (adjust (adjust w).2).2) signals = []).
Proof.
  intros Hdraw Hsame adjust.
  destruct (adjust_deterministic signals w' w Hsame) as [Hres Hstore].
  pose proof (adjust_idempotent signals w Hdraw) as Hidem. cbv zeta in Hidem.
  subst adjust. cbv beta.
  repeat split.
  - exact Hres.
  - exact Hstore.
  - rewrite Hstore, Hsame. reflexivity.
  - exact Hidem.
  - rewrite Hidem. apply suppressed_nothing.
Qed.

End Run.

(** ** The sorted population is ascending *)

Lemma SFcompare_antisym (x y : SpecFloat.spec_float) :
  SpecFloat.SFcompare y x = option_map CompOpp (SpecFloat.SFcompare x y).
Proof.
  destruct x as [sx|sx| |sx mx ex], y as [sy|sy| |sy my ey]; simpl;
    try destruct sx; try destruct sy; try reflexivity;
    rewrite (Z.compare_antisym ex ey); destruct (ex ?= ey)%Z; simpl;
    try reflexivity; fold (Pos.compare mx my); fold (Pos.compare my mx);
    rewrite (Pos.compare_antisym mx my); destruct (mx ?= my)%positive; reflexivity.
Qed.

Lemma not_nan_Prim2SF (a : float) :
  PrimFloat.is_nan a = false -> Prim2SF a <> SpecFloat.S754_nan.
Proof.
  unfold PrimFloat.is_nan. rewrite FloatAxioms.eqb_spec. intros H Hnan.
  rewrite Hnan in H. discriminate.
Qed.

Lemma float_ltb_leb (a b : float) :
  PrimFloat.ltb a b = true -> PrimFloat.leb a b = true.
Proof.
  rewrite ltb_spec, leb_spec. unfold SpecFloat.SFltb, SpecFloat.SFleb.
  destruct (SpecFloat.SFcompare _ _) as [[]|]; auto.
Qed.

Lemma float_not_ltb_leb (a b : float) :
  PrimFloat.is_nan a = false -> PrimFloat.is_nan b = false ->
  PrimFloat.ltb b a = false -> PrimFloat.leb a b = true.
Proof.
  intros Ha Hb. apply not_nan_Prim2SF in Ha, Hb.
  rewrite ltb_spec, leb_spec. unfold SpecFloat.SFltb, SpecFloat.SFleb.
  rewrite (SFcompare_antisym (Prim2SF a) (Prim2SF b)).
  destruct (Prim2SF a) as [sx|sx| |sx mx ex], (Prim2SF b) as [sy|sy| |sy my ey];
    try congruence; simpl;
    try (destruct sx; discriminate || reflexivity);
    try (destruct sy; discriminate || reflexivity);
    try (destruct sx, sy; discriminate || reflexivity).
  destruct sx, sy; try (discriminate || reflexivity);
    destruct (ex ?= ey)%Z; try (discriminate || reflexivity);
    destruct (Pos.compare_cont Eq mx my); discriminate || reflexivity.
Qed.

Lemma insert_by_key_HdRel {A} (key : A -> float) (y x : A) (l : list A) :
  HdRel (fun a b => PrimFloat.leb (key a) (key b) = true) y l ->
  PrimFloat.leb (key y) (key x) = true ->
  HdRel (fun a b => PrimFloat.leb (key a) (key b) = true) y (insert_by_key key x l).
Proof.
  intros Hhd Hyx. destruct l as [|z l]; simpl; [constructor; exact Hyx|].
  destruct (PrimFloat.ltb _ _); constructor; [|exact Hyx].
  inversion Hhd; assumption.
Qed.

Lemma insert_by_key_ascending {A} (key : A -> float) (x : A) (l : list A) :
  PrimFloat.is_nan (key x) = false ->
  Forall (fun y => PrimFloat.is_nan (key y) = false) l ->
  ascending key l -> ascending key (insert_by_key key x l).
Proof.
  intros Hx Hl Hs. induction Hs as [|y l Hs IH Hhd]; simpl.
  - repeat constructor.
  - apply Forall_cons in Hl as [Hy Hl].
    destruct (PrimFloat.ltb (key y) (key x)) eqn:Hlt.
    + constructor; [exact (IH Hl)|].
      apply insert_by_key_HdRel; [exact Hhd|]. apply float_ltb_leb, Hlt.
    + constructor; [constructor; assumption|].
      constructor. apply float_not_ltb_leb; assumption.
Qed.

Lemma sorted_ascending {A} (key : A -> float) (l : list A) :
  Forall (fun y => PrimFloat.is_nan (key y) = false) l ->
  ascending key (sorted l key).
Proof.
  unfold sorted. induction l as [|x l IH]; intros Hl; simpl; [constructor|].
  apply Forall_cons in Hl as [Hx Hl].
  apply insert_by_key_ascending; [exact Hx| |exact (IH Hl)].
  fold (sorted l key). rewrite sorted_Permutation. exact Hl.
Qed.

(** ** The two-candidate scenario *)

Lemma nothing_open_in_empty_portfolio (t : Ticker) :
  position_for_ticker_exists_in_portfolio (open_tickers []) t = false.
Proof.
  destruct t as [name|f]; unfold open_tickers; simpl.
  - apply bool_decide_eq_false, not_elem_of_empty.
  - rewrite elements_empty. reflexivity.
Qed.

Lemma drawn_one_of_two {RngState}
    (random_draw : RngState -> nat -> nat -> list nat * RngState) (g : RngState) :
  draw_contract random_draw ->
  (random_draw g 2 1).1 = [0] \/ (random_draw g 2 1).1 = [1].
Proof.
  intros Hdraw. destruct (Hdraw g 2 1) as (Hlen & _ & Hlt); [lia|].
  destruct (random_draw g 2 1).1 as [|i [|j l]]; simpl in Hlen; try discriminate.
  apply Forall_cons in Hlt as [Hi _].
  destruct i as [|[|i]]; [left|right|lia]; reflexivity.
Qed.

Section Scenario.
Context {RngState : Type}.
Variable random_seed : float -> RngState.
Variable random_draw : RngState -> nat -> nat -> list nat * RngState.
Variable now_timestamp : float.

Lemma scenario_population (h : Ref -> Signal) (lo hi : Ref) (signals : list Ref) :
  fraction_at_risk (h lo) = 0.01%float ->
  fraction_at_risk (h hi) = 0.05%float ->
  suggested_exposure (h lo) <> OUT ->
  suggested_exposure (h hi) <> OUT ->
  signals = [lo; hi] \/ signals = [hi; lo] ->
  opened [] h signals = []
  /\ length (candidates [] h signals) = 2
  /\ sorted (candidates [] h signals) (fun r => fraction_at_risk (h r)) = [lo; hi].
Proof.
  intros Hlo Hhi Elo Ehi Hsig.
  assert (Hnew : forall r, suggested_exposure (h r) <> OUT ->
                           is_new_positions_signal (open_tickers []) (h r) = true).
  { intros r Hr. unfold is_new_positions_signal.
    rewrite nothing_open_in_empty_portfolio, bool_decide_false by exact Hr.
    reflexivity. }
  assert (Hopen : forall r, is_open_positions_signal (open_tickers []) (h r) = false).
  { intros r. apply nothing_open_in_empty_portfolio. }
  unfold opened, candidates, sorted.
  destruct Hsig as [->| ->]; simpl;
    rewrite !Hopen, !Hnew by assumption; simpl; rewrite Hlo, Hhi;
    repeat split; reflexivity.
Qed.

(** C8 (amended): when suppression is needed and no candidate's fraction
    at risk is NaN, [random.sample] is called (after seeding with the
    cycle timestamp) on the candidates sorted by ascending fraction at
    risk; and in the scenario with a maximum of one
    open position, no existing position and two new-position signals with
    fractions at risk 0.01 and 0.05, exactly one of the two is suppressed
    to OUT and the other is left as it was: the 0.01 signal when position
    0 of the sorted candidates is drawn, the 0.05 signal when position 1
    is drawn. *)
Theorem suppression_draws_from_sorted_candidates :
  (forall max_open_positions broker_positions signals (w : @World RngState),
     let new_positions_signals :=
       candidates broker_positions (signal_store w) signals in
     let population :=
       sorted new_positions_signals (fun r => fraction_at_risk (signal_store w r)) in
     let k :=
       (Z.of_nat (length new_positions_signals)
        + Z.of_nat (length (opened broker_positions (signal_store w) signals))
        - max_open_positions)%Z in
     (0 < k)%Z ->
     Forall (fun r => PrimFloat.is_nan (fraction_at_risk (signal_store w r)) = false)
            new_positions_signals ->
     random_log
       (_adjust_number_of_open_positions random_seed random_draw max_open_positions
          broker_positions now_timestamp signals w).2
     = random_log w ++ [seed_call now_timestamp; sample_call population k]
     /\ population ≡ₚ new_positions_signals
     /\ ascending (fun r => fraction_at_risk (signal_store w r)) population)
  /\ (forall (w : @World RngState) (lo hi : Ref) (signals : list Ref),
        draw_contract random_draw ->
        lo <> hi ->
        fraction_at_risk (signal_store w lo) = 0.01%float ->
        fraction_at_risk (signal_store w hi) = 0.05%float ->
        suggested_exposure (signal_store w lo) <> OUT ->
        suggested_exposure (signal_store w hi) <> OUT ->
        signals = [lo; hi] \/ signals = [hi; lo] ->
        let run :=
          _adjust_number_of_open_positions random_seed random_draw 1 []
            now_timestamp signals w in
        let drawn := (random_draw (random_seed now_timestamp) 2 1).1 in
        run.1 = Returns signals
        /\ random_log run.2
           = random_log w ++ [seed_call now_timestamp; sample_call [lo; hi] 1]
        /\ ((drawn = [0]
             /\ signal_store run.2 lo
                = with_suggested_exposure (signal_store w lo) OUT
             /\ signal_store run.2 hi = signal_store w hi)
            \/ (drawn = [1]
                /\ signal_store run.2 hi
                   = with_suggested_exposure (signal_store w hi) OUT
                /\ signal_store run.2 lo = signal_store w lo))).
Proof.
  split.
  - intros max_open_positions broker_positions signals w new_positions_signals
      population k Hk Hnan.
    split; [|split].
    + rewrite adjust_run. fold new_positions_signals. fold population. fold k.
      destruct (Z.ltb_spec 0 k); [|lia].
      destruct (_ <? _)%Z; cbn [snd random_log]; rewrite <- app_assoc; reflexivity.
    + apply sorted_Permutation.
    + apply sorted_ascending. exact Hnan.
  - intros w lo hi signals Hdraw Hne Hlo Hhi Elo Ehi Hsig run drawn.
    destruct (scenario_population (signal_store w) lo hi signals Hlo Hhi Elo Ehi Hsig)
      as (Hopened & Hcand & Hpop).
    subst run. rewrite adjust_run. rewrite Hopened, Hcand, Hpop.
    cbn [length Z.of_nat]. simpl (_ <? _)%Z. cbv iota. cbn [fst snd].
    split; [reflexivity|]. split; [cbn [random_log]; rewrite <- app_assoc; reflexivity|].
    cbn [signal_store].
    change (Z.to_nat (Z.of_nat 2 + Z.of_nat 0 - 1)) with 1%nat. fold drawn.
    assert (Hlo_ne : Nat.eqb lo hi = false) by (apply Nat.eqb_neq; exact Hne).
    assert (Hhi_ne : Nat.eqb hi lo = false) by (apply Nat.eqb_neq; congruence).
    destruct (drawn_one_of_two random_draw (random_seed now_timestamp) Hdraw)
      as [Hd|Hd]; fold drawn in Hd; rewrite Hd; simpl; unfold assign_exposure.
    + left. rewrite Nat.eqb_refl, Hhi_ne. auto.
    + right. rewrite Nat.eqb_refl, Hlo_ne. auto.
Qed.

End Scenario.

(** ** Sample runs of the cap enforcement *)

Lemma draw_first_contract : draw_contract draw_first.
Proof.
  intros g n k Hk. simpl. split; [apply length_seq|].
  split; [apply NoDup_seq|]. apply Forall_seq. intros; lia.
Qed.

Lemma draw_last_contract : draw_contract draw_last.
Proof.
  intros g n k Hk. simpl. split; [apply length_seq|].
  split; [apply NoDup_seq|]. apply Forall_seq. intros; lia.
Qed.

(** C8 (as stated, refuted): in the scenario, a generator that draws
    position 1 of the two sorted candidates leaves the 0.01 signal alone
    and suppresses the 0.05 signal.  (CPython's generator seeded with
    1578009600.0 draws position 1 of a population of two.) *)
Lemma highest_fraction_at_risk_suppressed :
  draw_contract draw_last
  /\ signal_store
       (_adjust_number_of_open_positions seed_of draw_last 1 []
          1578009600%float [0; 1] scenario_world).2 0
     = signal_of "AAPL" LONG 0.01%float
  /\ signal_store
       (_adjust_number_of_open_positions seed_of draw_last 1 []
          1578009600%float [0; 1] scenario_world).2 1
     = signal_of "MSFT" OUT 0.05%float.
Proof.
  split; [exact draw_last_contract|]. split; vm_compute; reflexivity.
Qed.

Lemma suppression_draws_from_sorted_candidates_witness :
  draw_contract draw_first
  /\ signal_store
       (_adjust_number_of_open_positions seed_of draw_first 1 []
          1578009600%float [1; 0] scenario_world).2 0
     = signal_of "AAPL" OUT 0.01%float
  /\ random_log
       (_adjust_number_of_open_positions seed_of draw_first 1 []
          1578009600%float [1; 0] scenario_world).2
     = [seed_call 1578009600%float; sample_call [0; 1] 1%Z].
Proof.
  split; [exact draw_first_contract|]. split.
  - destruct (proj2 (suppression_draws_from_sorted_candidates seed_of draw_first
                       1578009600%float)
                scenario_world 0 1 [1; 0] draw_first_contract)
      as (_ & _ & [(_ & H & _)|(Hd & _)]);
      try reflexivity; try discriminate; auto.
  - destruct (proj1 (suppression_draws_from_sorted_candidates seed_of draw_first
                       1578009600%float)
                1%Z [] [1; 0] scenario_world) as (H & _).
    + vm_compute. reflexivity.
    + apply Forall_forall. intros r _. destruct r as [|r]; reflexivity.
    + exact H.
Defined.

Lemma cap_enforcement_example :
  suppressed three_signals
    (signal_store
       (_adjust_number_of_open_positions seed_of draw_first 2
          [{| position_ticker := "IBM"; position_quantity := 10 |}]
          1577836800%float [0; 1; 2] (three_signals_world 3)).2)
    [0; 1; 2]
  = [1].
Proof. vm_compute. reflexivity. Qed.

Lemma cap_enforcement_deterministic_and_idempotent_witness :
  draw_contract draw_first
  /\ suppressed three_signals
       (signal_store
          (_adjust_number_of_open_positions seed_of draw_first 2
             [{| position_ticker := "IBM"; position_quantity := 10 |}]
             1577836800%float [0; 1; 2] (three_signals_world 11)).2)
       [0; 1; 2]
     = suppressed three_signals
         (signal_store
            (_adjust_number_of_open_positions seed_of draw_first 2
               [{| position_ticker := "IBM"; position_quantity := 10 |}]
               1577836800%float [0; 1; 2] (three_signals_world 3)).2)
         [0; 1; 2].
Proof.
  split; [exact draw_first_contract|].
  apply (cap_enforcement_deterministic_and_idempotent seed_of draw_first 2
           [{| position_ticker := "IBM"; position_quantity := 10 |}]
           1577836800%float [0; 1; 2] (three_signals_world 3) (three_signals_world 11)
           draw_first_contract eq_refl).
Defined.

End CapFacts.

(** * Properties of the execution styles *)

Module ExecutionStyleFacts.
Import ExecutionStyleMethods.

(** Floats that compare equal are the same number, or two zeros. *)
Lemma SFcompare_Eq_inv (x y : SpecFloat.spec_float) :
  SpecFloat.SFcompare x y = Some Eq ->
  x = y \/ (exists s s', x = SpecFloat.S754_zero s /\ y = SpecFloat.S754_zero s').
Proof.
  destruct x as [sx|sx| |sx mx ex], y as [sy|sy| |sy my ey]; simpl;
    try discriminate;
    try (destruct sx; discriminate);
    try (destruct sy; discriminate).
  - intros _. right. eauto.
  - destruct sx, sy; try discriminate; auto.
  - destruct sx, sy; try discriminate;
      destruct (Z.compare_spec ex ey) as [->| |]; try discriminate;
      fold (Pos.compare mx my);
      destruct (Pos.compare_spec mx my) as [->| |]; try discriminate; auto.
Qed.

Lemma float_eqb_sym (a b : float) : PrimFloat.eqb a b = PrimFloat.eqb b a.
Proof.
  rewrite !FloatAxioms.eqb_spec. unfold SpecFloat.SFeqb.
  rewrite (CapFacts.SFcompare_antisym (Prim2SF a) (Prim2SF b)).
  destruct (SpecFloat.SFcompare _ _) as [[]|]; reflexivity.
Qed.

Lemma float_eqb_trans (a b c : float) :
  PrimFloat.eqb a b = true -> PrimFloat.eqb b c = true -> PrimFloat.eqb a c = true.
Proof.
  rewrite !FloatAxioms.eqb_spec. unfold SpecFloat.SFeqb.
  destruct (SpecFloat.SFcompare (Prim2SF a) (Prim2SF b)) as [[]|] eqn:Hab;
    try discriminate.
  destruct (SpecFloat.SFcompare (Prim2SF b) (Prim2SF c)) as [[]|] eqn:Hbc;
    try discriminate.
  intros _ _.
  destruct (SFcompare_Eq_inv _ _ Hab) as [Heq|(s & s' & Ha & Hb)].
  - rewrite Heq, Hbc. reflexivity.
  - destruct (SFcompare_Eq_inv _ _ Hbc) as [Heq|(t & t' & Hb' & Hc)].
    + rewrite <- Heq, Ha, Hb. reflexivity.
    + rewrite Ha, Hc. reflexivity.
Qed.

(** X1: between two distinct style objects, [==] is symmetric and
    transitive, and a style equals a distinct copy of itself exactly when
    it is not a stop order with a NaN price; an object always equals
    itself. *)
Theorem style_equality_is_partial_equivalence :
  (forall a b, __eq__ a false (StyleObject b) = __eq__ b false (StyleObject a))
  /\ (forall a b c,
        __eq__ a false (StyleObject b) = true ->
        __eq__ b false (StyleObject c) = true ->
        __eq__ a false (StyleObject c) = true)
  /\ (forall a,
        __eq__ a false (StyleObject a)
        = match a with
          | StopOrder stop_price => negb (PrimFloat.is_nan stop_price)
          | _ => true
          end)
  /\ (forall a, __eq__ a true (StyleObject a) = true).
Proof.
  repeat split.
  - intros [| |p] [| |q]; simpl; try reflexivity. apply float_eqb_sym.
  - intros [| |p] [| |q] [| |r]; simpl; try discriminate; try reflexivity.
    apply float_eqb_trans.
  - intros [| |p]; simpl; try reflexivity.
    unfold PrimFloat.is_nan. rewrite negb_involutive. reflexivity.
  - intros [| |p]; reflexivity.
Qed.

(** X2: a style is equal only to styles of its own class (never to an
    object of another type), and equal styles have equal hashes, as long
    as Python's float hash agrees on floats that compare equal. *)
Theorem equal_styles_have_equal_hashes
    (hash_str : string -> Z) (hash_float : float -> Z) (hash_tuple : list Z -> Z)
    (self : ExecutionStyle) (other_is_self : bool) (other : PyObject) :
  (forall x y, PrimFloat.eqb x y = true -> hash_float x = hash_float y) ->
  (other_is_self = true -> other = StyleObject self) ->
  __eq__ self other_is_self other = true ->
  exists style,
    other = StyleObject style
    /\ class_name style = class_name self
    /\ __hash__ hash_str hash_float hash_tuple self
       = __hash__ hash_str hash_float hash_tuple style.
Proof.
  intros Hhash Hself Heq.
  destruct other_is_self.
  - exists self. rewrite (Hself eq_refl). auto.
  - destruct self as [| |p], other as [[| |q]|]; simpl in Heq; try discriminate.
    + exists MarketOrder. auto.
    + exists MarketOnCloseOrder. auto.
    + exists (StopOrder q). simpl. rewrite (Hhash p q Heq). auto.
Qed.

Lemma equal_styles_have_equal_hashes_witness :
  __eq__ (StopOrder 0%float) false (StyleObject (StopOrder (-0)%float)) = true
  /\ exists style,
       StyleObject (StopOrder (-0)%float) = StyleObject style
       /\ class_name style = class_name (StopOrder 0%float)
       /\ __hash__ (fun _ => 1%Z) (fun _ => 0%Z) (fun l => foldr Z.add 0%Z l)
            (StopOrder 0%float)
          = __hash__ (fun _ => 1%Z) (fun _ => 0%Z) (fun l => foldr Z.add 0%Z l) style.
Proof.
  split; [reflexivity|].
  apply (equal_styles_have_equal_hashes (fun _ => 1%Z) (fun _ => 0%Z)
           (fun l => foldr Z.add 0%Z l) (StopOrder 0%float) false
           (StyleObject (StopOrder (-0)%float))).
  - reflexivity.
  - discriminate.
  - reflexivity.
Defined.

(** The label of a style tells its class, whatever text a float is
    printed as: two styles with the same label are of the same class. *)
Lemma label_tells_the_class (str_float : float -> string) (a b : ExecutionStyle) :
  __str__ str_float a = __str__ str_float b -> class_name a = class_name b.
Proof.
  destruct a as [| |p], b as [| |q]; simpl; try reflexivity; discriminate.
Qed.

Lemma label_tells_the_class_witness :
  __str__ (fun _ => "95.0") (StopOrder 95%float)
  = __str__ (fun _ => "95.0") (StopOrder 95.00001%float)
  /\ class_name (StopOrder 95%float) = class_name (StopOrder 95.00001%float).
Proof.
  split; [reflexivity|].
  apply (label_tells_the_class (fun _ => "95.0")). reflexivity.
Defined.

End ExecutionStyleFacts.

(** * More on exposure reconciliation *)

Module ExposureMoreFacts.
Import AlphaModelStrategy Vocabulary Samples.

Lemma size_list_to_set_le (l : list string) :
  size (list_to_set l : gset string) <= length l.
Proof.
  induction l as [|x l IH].
  - rewrite list_to_set_nil, size_empty. reflexivity.
  - rewrite list_to_set_cons, size_union_alt, size_singleton. cbn [length].
    pose proof (subseteq_size (list_to_set l ∖ {[x]}) (list_to_set l : gset string)
                  ltac:(apply subseteq_difference_l; reflexivity)).
    lia.
Qed.

Lemma size_list_to_set_NoDup (l : list string) :
  size (list_to_set l : gset string) = length l -> NoDup l.
Proof.
  induction l as [|x l IH]; intros Hsize; [constructor|].
  rewrite list_to_set_cons in Hsize. cbn [length] in Hsize.
  pose proof (size_list_to_set_le l) as Hle.
  assert (Hx : x ∉ l).
  { intros Hin.
    assert (Heq : ({[x]} ∪ list_to_set l : gset string) = list_to_set l).
    { apply subseteq_union_1_L. apply singleton_subseteq_l.
      apply elem_of_list_to_set. exact Hin. }
    rewrite Heq in Hsize. lia. }
  constructor; [exact Hx|]. apply IH.
  rewrite size_union in Hsize.
  - rewrite size_singleton in Hsize. lia.
  - apply disjoint_singleton_l. rewrite elem_of_list_to_set. exact Hx.
Qed.

(** X3: whenever the snapshot holds two positions for one exact ticker,
    the exposure computation fails its first assertion, for every ticker
    asked about (plain or future), before anything else is looked at. *)
Theorem duplicate_position_is_fatal (t : Ticker) (positions : list Position) :
  ~ NoDup (position_ticker <$> positions) ->
  _get_current_exposure t positions
  = Raises (AssertionError "There should be max 1 position open per ticker").
Proof.
  intros Hdup. unfold _get_current_exposure.
  destruct (Nat.eqb_spec (size (ticker_to_quantity_of positions)) (length positions))
    as [Heq|Hne]; [|reflexivity].
  exfalso. apply Hdup. apply size_list_to_set_NoDup.
  rewrite <- ExposureFacts.ticker_to_quantity_of_dom, size_dom, Heq, length_fmap.
  reflexivity.
Qed.

Lemma duplicate_position_is_fatal_witness :
  ~ NoDup (position_ticker <$> [position "AAPL" 5; position "MSFT" 1; position "AAPL" 5])
  /\ _get_current_exposure (FutureTickerOf gold)
       [position "AAPL" 5; position "MSFT" 1; position "AAPL" 5]
     = Raises (AssertionError "There should be max 1 position open per ticker").
Proof.
  assert (Hdup : ~ NoDup (position_ticker <$>
                   [position "AAPL" 5; position "MSFT" 1; position "AAPL" 5])).
  { intros Hnd. apply NoDup_cons in Hnd as [Hnot _]. apply Hnot.
    right. left. }
  split; [exact Hdup|].
  apply (duplicate_position_is_fatal (FutureTickerOf gold) _ Hdup).
Defined.

(** X4: for a plain ticker, on a snapshot with one position per ticker,
    the exposure computation never fails: it returns the exposure given
    by the sign of the quantity of the ticker's position, and OUT when
    the ticker has no position. *)
Theorem exposure_of_plain_ticker (name : string) (positions : list Position) :
  NoDup (position_ticker <$> positions) ->
  (forall p, p ∈ positions -> position_ticker p = name ->
     _get_current_exposure (SpecificTicker name) positions
     = Returns (if (0 <? position_quantity p)%Z then LONG
                else if (position_quantity p <? 0)%Z then SHORT else OUT))
  /\ (name ∉ position_ticker <$> positions ->
      _get_current_exposure (SpecificTicker name) positions = Returns OUT).
Proof.
  intros Hnd. rewrite (ExposureFacts.exposure_of_specific_ticker name positions Hnd).
  split.
  - intros p Hin <-.
    rewrite (ExposureFacts.current_quantity_of_position positions p Hnd Hin).
    unfold Exposure_of_sign.
    destruct (position_quantity p); reflexivity.
  - intros Hnot. rewrite (ExposureFacts.current_quantity_absent positions name Hnot).
    reflexivity.
Qed.

Lemma exposure_of_plain_ticker_witness :
  _get_current_exposure (SpecificTicker "MSFT")
    [position "AAPL" 5; position "MSFT" (-2)]
  = Returns SHORT.
Proof.
  assert (Hnd : NoDup (position_ticker <$> [position "AAPL" 5; position "MSFT" (-2)])).
  { apply (bool_decide_unpack _). vm_compute. exact I. }
  apply (proj1 (exposure_of_plain_ticker "MSFT" _ Hnd) (position "MSFT" (-2))).
  - right. left.
  - reflexivity.
Defined.

End ExposureMoreFacts.

(** * More on the cap on open positions *)

Module CapMoreFacts.
Import AlphaModelStrategy Vocabulary Samples.

(** X5: a ticker exists in the portfolio exactly when the broker holds a
    position for it: for a plain ticker a position with that very ticker,
    for a future ticker a position on any contract of the family. *)
Theorem position_exists_iff_held (broker_positions : list Position) (t : Ticker) :
  position_for_ticker_exists_in_portfolio (open_tickers broker_positions) t = true
  <-> exists p, p ∈ broker_positions
                /\ match t with
                   | SpecificTicker name => position_ticker p = name
                   | FutureTickerOf f => belongs_to_family f (position_ticker p) = true
                   end.
Proof.
  unfold open_tickers. destruct t as [name|f]; simpl.
  - rewrite bool_decide_eq_true, elem_of_list_to_set, list_elem_of_fmap.
    split; intros (p & H1 & H2); exists p; auto.
  - rewrite existsb_exists. split.
    + intros (x & Hx & Hb). apply list_elem_of_In, elem_of_elements in Hx.
      apply elem_of_list_to_set, list_elem_of_fmap in Hx as (p & -> & Hp). eauto.
    + intros (p & Hp & Hb). exists (position_ticker p). split; [|exact Hb].
      apply list_elem_of_In, elem_of_elements, elem_of_list_to_set, list_elem_of_fmap.
      eauto.
Qed.

Lemma omap_length_le {A B} (f : A -> option B) (l : list A) :
  length (omap f l) <= length l.
Proof.
  induction l as [|x l IH]; [reflexivity|].
  change (omap f (x :: l))
    with (match f x with Some y => y :: omap f l | None => omap f l end).
  destruct (f x); cbn [length]; lia.
Qed.

(** The elements found at distinct positions of a duplicate-free list are
    exactly as many as the positions. *)
Lemma hits_exactly {A} `{EqDecision A} (pop : list A) (D : list nat) :
  NoDup pop -> NoDup D -> Forall (fun i => i < length pop) D ->
  length (List.filter (fun x => bool_decide (x ∈ omap (fun i => pop !! i) D)) pop)
  = length D.
Proof.
  intros Hpop HD Hlt.
  set (chosen := omap (fun i => pop !! i) D).
  apply Nat.le_antisymm.
  - transitivity (length chosen); [|apply omap_length_le].
    apply submseteq_length, NoDup_submseteq.
    + apply NoDup_ListNoDup, List.NoDup_filter, NoDup_ListNoDup. exact Hpop.
    + intros x Hx. apply list_elem_of_In, filter_In in Hx as [_ Hx].
      apply bool_decide_eq_true in Hx. exact Hx.
  - apply CapFacts.hits_at_distinct_positions; [exact HD|].
    intros i Hi. rewrite Forall_forall in Hlt.
    destruct (lookup_lt_is_Some_2 pop i (Hlt i Hi)) as [x Hx].
    exists x. split; [exact Hx|]. apply bool_decide_eq_true.
    apply list_elem_of_omap. eauto.
Qed.

Section Run.
Context {RngState : Type}.
Variable random_seed : float -> RngState.
Variable random_draw : RngState -> nat -> nat -> list nat * RngState.
Variable max_open_positions : Z.
Variable broker_positions : list Position.
Variable now_timestamp : float.

(** X6: when the signals for open positions and the signals opening new
    ones are together within the maximum, the run changes nothing at all:
    no signal is touched and the random generator is neither seeded nor
    used. *)
Theorem within_cap_changes_nothing (signals : list Ref) (w : @World RngState) :
  (Z.of_nat (length (candidates broker_positions (signal_store w) signals))
   + Z.of_nat (length (opened broker_positions (signal_store w) signals))
   <= max_open_positions)%Z ->
  _adjust_number_of_open_positions random_seed random_draw max_open_positions
    broker_positions now_timestamp signals w
  = (Returns signals, w).
Proof.
  intros Hle. rewrite CapFacts.adjust_run.
  destruct (Z.ltb_spec 0
              (Z.of_nat (length (candidates broker_positions (signal_store w) signals))
               + Z.of_nat (length (opened broker_positions (signal_store w) signals))
               - max_open_positions)); [lia|reflexivity].
Qed.

Lemma adjust_raises_iff (signals : list Ref) (w : @World RngState) :
  let run :=
    _adjust_number_of_open_positions random_seed random_draw max_open_positions
      broker_positions now_timestamp signals w in
  ((exists e, run.1 = Raises e)
   <-> (max_open_positions
        < Z.of_nat (length (opened broker_positions (signal_store w) signals)))%Z)
  /\ ((exists e, run.1 = Raises e) ->
      run.1 = Raises (ValueError "Sample larger than population or is negative")
      /\ signal_store run.2 = signal_store w
      /\ broker_log run.2 = broker_log w).
Proof.
  intros run. subst run. rewrite CapFacts.adjust_run.
  set (n := length (candidates broker_positions (signal_store w) signals)).
  set (o := length (opened broker_positions (signal_store w) signals)).
  destruct (Z.ltb_spec 0 (Z.of_nat n + Z.of_nat o - max_open_positions)) as [Hk|Hk].
  - destruct (Z.ltb_spec (Z.of_nat n) (Z.of_nat n + Z.of_nat o - max_open_positions))
      as [Hn|Hn]; cbn [fst snd signal_store broker_log].
    + split; [split; [intros _; lia|intros _; eauto]|auto].
    + split; [split; [intros [e He]; discriminate|intros; lia]|].
      intros [e He]; discriminate.
  - cbn [fst snd]. split; [split; [intros [e He]; discriminate|intros; lia]|].
    intros [e He]; discriminate.
Qed.

Lemma adjust_keeps_broker_log (signals : list Ref) (w : @World RngState) :
  broker_log
    (_adjust_number_of_open_positions random_seed random_draw max_open_positions
       broker_positions now_timestamp signals w).2
  = broker_log w.
Proof.
  rewrite CapFacts.adjust_run.
  destruct (_ <? _)%Z; [|reflexivity].
  destruct (_ <? _)%Z; reflexivity.
Qed.

(** X7: the run raises exactly when the signals whose ticker has an open
    position alone outnumber the maximum; what is raised is the
    [ValueError] of [random.sample], and then no signal has been changed
    and the broker has not been called. *)
Theorem raises_iff_open_positions_exceed_cap (signals : list Ref) (w : @World RngState) :
  let run :=
    _adjust_number_of_open_positions random_seed random_draw max_open_positions
      broker_positions now_timestamp signals w in
  ((exists e, run.1 = Raises e)
   <-> (max_open_positions
        < Z.of_nat (length (opened broker_positions (signal_store w) signals)))%Z)
  /\ ((exists e, run.1 = Raises e) ->
      run.1 = Raises (ValueError "Sample larger than population or is negative")
      /\ signal_store run.2 = signal_store w
      /\ broker_log run.2 = broker_log w).
Proof. apply adjust_raises_iff. Qed.

Lemma cap_outcome (signals : list Ref) (w : @World RngState) :
  draw_contract random_draw ->
  (Z.of_nat (length (opened broker_positions (signal_store w) signals))
   <= max_open_positions)%Z ->
  let h' :=
    signal_store
      (_adjust_number_of_open_positions random_seed random_draw max_open_positions
         broker_positions now_timestamp signals w).2 in
  (Z.of_nat (length (candidates broker_positions h' signals))
   + Z.of_nat (length (opened broker_positions h' signals))
   <= max_open_positions)%Z.
Proof.
  intros Hdraw Ho h'. subst h'. rewrite CapFacts.adjust_run.
  set (n := length (candidates broker_positions (signal_store w) signals)) in *.
  set (o := length (opened broker_positions (signal_store w) signals)) in *.
  set (k := (Z.of_nat n + Z.of_nat o - max_open_positions)%Z).
  destruct (Z.ltb_spec 0 k) as [Hk|Hk]; [|cbn [snd]; fold n o; lia].
  destruct (Z.ltb_spec (Z.of_nat n) k) as [Hn|Hn]; [lia|].
  cbn [snd signal_store].
  rewrite CapFacts.opened_after_assign. fold o.
  set (population := sorted (candidates broker_positions (signal_store w) signals)
                            (fun r => fraction_at_risk (signal_store w r))) in *.
  assert (Hlen : length population = n) by apply CapFacts.sorted_length.
  destruct (Hdraw (random_seed now_timestamp) (length population) (Z.to_nat k))
    as (HDlen & HDnd & HDlt); [lia|].
  pose proof (CapFacts.candidates_left broker_positions (signal_store w) signals
                _ HDnd HDlt) as Hleft.
  cbv zeta in Hleft. fold population in Hleft. fold n in Hleft.
  rewrite HDlen in Hleft. lia.
Qed.

End Run.

(** X8: after a run that returns, the signals of the list that would open
    a new position and those for open positions are together within the
    maximum, so that the positions open after the orders will not exceed
    it (as long as [random.sample] draws distinct positions of its
    population). *)
Theorem capped_after_run {RngState}
    (random_seed : float -> RngState)
    (random_draw : RngState -> nat -> nat -> list nat * RngState)
    (max_open_positions : Z) (broker_positions : list Position)
    (now_timestamp : float) (signals : list Ref) (w : @World RngState) :
  draw_contract random_draw ->
  (_adjust_number_of_open_positions random_seed random_draw max_open_positions
     broker_positions now_timestamp signals w).1 = Returns signals ->
  let h' :=
    signal_store
      (_adjust_number_of_open_positions random_seed random_draw max_open_positions
         broker_positions now_timestamp signals w).2 in
  (Z.of_nat (length (candidates broker_positions h' signals))
   + Z.of_nat (length (opened broker_positions h' signals))
   <= max_open_positions)%Z.
Proof.
  intros Hdraw Hret. apply cap_outcome; [exact Hdraw|].
  destruct (Z.le_gt_cases
              (Z.of_nat (length (opened broker_positions (signal_store w) signals)))
              max_open_positions) as [Hle|Hgt]; [exact Hle|].
  destruct (adjust_raises_iff random_seed random_draw
              max_open_positions broker_positions now_timestamp signals w)
    as [[_ Hraise] _].
  destruct (Hraise Hgt) as [e He]. rewrite Hret in He. discriminate.
Qed.

Lemma suppressed_are_the_chosen (broker_positions : list Position)
    (h : Ref -> Signal) (signals : list Ref) (D : list nat) :
  let chosen :=
    omap (fun i => sorted (candidates broker_positions h signals)
                          (fun r => fraction_at_risk (h r)) !! i) D in
  suppressed h (foldl (assign_exposure OUT) h chosen) signals
  = List.filter (fun r => bool_decide (r ∈ chosen))
                (candidates broker_positions h signals).
Proof.
  intros chosen. unfold suppressed, candidates.
  rewrite CapFacts.filter_filter_andb. apply filter_ext. intros r.
  rewrite CapFacts.foldl_assign_out. fold chosen.
  destruct (bool_decide (r ∈ chosen)) eqn:Hin.
  - apply bool_decide_eq_true in Hin.
    apply CapFacts.drawn_elements_are_candidates in Hin as [_ Hnew].
    rewrite Hnew. unfold is_new_positions_signal in Hnew.
    apply andb_true_iff in Hnew as [_ Hout]. simpl. rewrite Hout.
    reflexivity.
  - rewrite andb_false_r. apply andb_negb_l.
Qed.

(** X9: on a list of distinct signal objects, when the count exceeds the
    maximum and the open-position signals alone do not, the run
    suppresses exactly as many signals as the count exceeds the maximum
    by (given that [random.sample] draws distinct positions). *)
Theorem suppresses_exactly_the_excess {RngState}
    (random_seed : float -> RngState)
    (random_draw : RngState -> nat -> nat -> list nat * RngState)
    (max_open_positions : Z) (broker_positions : list Position)
    (now_timestamp : float) (signals : list Ref) (w : @World RngState) :
  draw_contract random_draw ->
  NoDup signals ->
  (max_open_positions
   < Z.of_nat (length (candidates broker_positions (signal_store w) signals))
     + Z.of_nat (length (opened broker_positions (signal_store w) signals)))%Z ->
  (Z.of_nat (length (opened broker_positions (signal_store w) signals))
   <= max_open_positions)%Z ->
  Z.of_nat
    (length
       (suppressed (signal_store w)
          (signal_store
             (_adjust_number_of_open_positions random_seed random_draw
                max_open_positions broker_positions now_timestamp signals w).2)
          signals))
  = (Z.of_nat (length (candidates broker_positions (signal_store w) signals))
     + Z.of_nat (length (opened broker_positions (signal_store w) signals))
     - max_open_positions)%Z.
Proof.
  intros Hdraw Hnd Hover Ho. rewrite CapFacts.adjust_run.
  set (cand := candidates broker_positions (signal_store w) signals) in *.
  set (n := length cand) in *.
  set (o := length (opened broker_positions (signal_store w) signals)) in *.
  set (k := (Z.of_nat n + Z.of_nat o - max_open_positions)%Z).
  destruct (Z.ltb_spec 0 k) as [Hk|Hk]; [|lia].
  destruct (Z.ltb_spec (Z.of_nat n) k) as [Hn|Hn]; [lia|].
  cbn [snd signal_store].
  set (population := sorted cand (fun r => fraction_at_risk (signal_store w r))).
  assert (Hlen : length population = n) by apply CapFacts.sorted_length.
  destruct (Hdraw (random_seed now_timestamp) (length population) (Z.to_nat k))
    as (HDlen & HDnd & HDlt); [lia|].
  unfold population at 1. unfold cand at 1.
  rewrite suppressed_are_the_chosen. fold cand. fold population.
  rewrite <- (Permutation_length
                (CapFacts.filter_Permutation _ _ _
                   (CapFacts.sorted_Permutation cand
                      (fun r => fraction_at_risk (signal_store w r))))).
  fold population.
  rewrite hits_exactly; [rewrite HDlen; lia| |exact HDnd|exact HDlt].
  unfold population. rewrite CapFacts.sorted_Permutation.
  apply NoDup_ListNoDup, List.NoDup_filter, NoDup_ListNoDup. exact Hnd.
Qed.

(** ** Sample runs *)

Lemma within_cap_changes_nothing_witness :
  _adjust_number_of_open_positions seed_of draw_first 3
    [position "IBM" 10] 1577836800%float [0; 1; 2] (three_signals_world 3)
  = (Returns [0; 1; 2], three_signals_world 3).
Proof.
  apply (within_cap_changes_nothing seed_of draw_first 3 [position "IBM" 10]
           1577836800%float [0; 1; 2] (three_signals_world 3)).
  vm_compute. discriminate.
Defined.

Lemma raises_iff_open_positions_exceed_cap_witness :
  (_adjust_number_of_open_positions seed_of draw_first 0
     [position "IBM" 10] 1577836800%float [0; 1; 2] (three_signals_world 3)).1
  = Raises (ValueError "Sample larger than population or is negative").
Proof.
  destruct (raises_iff_open_positions_exceed_cap seed_of draw_first 0
              [position "IBM" 10] 1577836800%float [0; 1; 2] (three_signals_world 3))
    as [[_ Hraise] Hwhat].
  apply Hwhat, Hraise. vm_compute. reflexivity.
Defined.

Lemma capped_after_run_witness :
  draw_contract draw_first
  /\ (Z.of_nat
        (length
           (candidates [position "IBM" 10]
              (signal_store
                 (_adjust_number_of_open_positions seed_of draw_first 2
                    [position "IBM" 10] 1577836800%float (seq 0 3)
                    (three_signals_world 3)).2)
              (seq 0 3)))
      + Z.of_nat
          (length
             (opened [position "IBM" 10]
                (signal_store
                   (_adjust_number_of_open_positions seed_of draw_first 2
                      [position "IBM" 10] 1577836800%float (seq 0 3)
                      (three_signals_world 3)).2)
                (seq 0 3)))
      <= 2)%Z.
Proof.
  split; [exact CapFacts.draw_first_contract|].
  apply (capped_after_run seed_of draw_first 2 [position "IBM" 10]
           1577836800%float [0; 1; 2] (three_signals_world 3)
           CapFacts.draw_first_contract).
  vm_compute. reflexivity.
Defined.

Lemma suppresses_exactly_the_excess_witness :
  Z.of_nat
    (length
       (suppressed three_signals
          (signal_store
             (_adjust_number_of_open_positions seed_of draw_last 1
                [position "IBM" 10] 1577836800%float [0; 1; 2]
                (three_signals_world 3)).2)
          [0; 1; 2]))
  = 2%Z.
Proof.
  apply (suppresses_exactly_the_excess seed_of draw_last 1 [position "IBM" 10]
           1577836800%float [0; 1; 2] (three_signals_world 3)
           CapFacts.draw_last_contract).
  - apply (bool_decide_unpack _). vm_compute. exact I.
  - vm_compute. reflexivity.
  - vm_compute. discriminate.
Defined.

End CapMoreFacts.

(** * More on submission *)

Module SubmissionMoreFacts.
Import AlphaModelStrategy Vocabulary Samples CycleVocabulary.

Section Facts.
Context {RngState : Type}.
Variable use_stop_losses : bool.
Variable time_in_force : string.
Variable frequency : string.
Variable size_signals :
  list Signal -> bool -> string -> string -> Outcome (list Order).
Variable generate_close_orders : Outcome (list Order).
Variable orders_filters : list (list Order -> Outcome (list Order)).
Variable broker_cancel_all_open_orders : Outcome unit.
Variable broker_place_orders : list Order -> Outcome unit.

Lemma apply_orders_filters_nil
    (filters : list (list Order -> Outcome (list Order))) :
  apply_orders_filters filters [] = Returns [].
Proof. induction filters as [|f filters IH]; [reflexivity|exact IH]. Qed.

(** X10: when sizing, the rolling close orders or a filter raises, the
    exception leaves [_place_orders] and the broker is not called at all:
    the orders open at the broker are not cancelled, and nothing else
    changes either. *)
Theorem failure_leaves_broker_untouched
    (signals : list Ref) (w : @World RngState) (e : PyExn) :
  (orders_to_submit use_stop_losses time_in_force frequency size_signals
     generate_close_orders orders_filters signals w).1 = Raises e ->
  _place_orders use_stop_losses time_in_force frequency size_signals
    generate_close_orders orders_filters broker_cancel_all_open_orders
    broker_place_orders signals w
  = (Raises e, w).
Proof. apply SubmissionFacts.failure_before_submission. Qed.

(** X11: whatever the collaborators answer, [_place_orders] calls the
    broker in one of three ways: not at all; [cancel_all_open_orders]
    alone, when that call raises; or [cancel_all_open_orders] and then
    [place_orders] once.  It never places orders without a cancellation
    that returned, and never repeats a call. *)
Theorem broker_calls_of_place_orders (signals : list Ref) (w : @World RngState) :
  let after :=
    broker_log
      (_place_orders use_stop_losses time_in_force frequency size_signals
         generate_close_orders orders_filters broker_cancel_all_open_orders
         broker_place_orders signals w).2 in
  after = broker_log w
  \/ (after = broker_log w ++ [cancel_all_open_orders_call]
      /\ exists e, broker_cancel_all_open_orders = Raises e)
  \/ (exists orders,
        after = broker_log w ++ [cancel_all_open_orders_call; place_orders_call orders]
        /\ broker_cancel_all_open_orders = Returns tt).
Proof.
  intros after. subst after.
  destruct (orders_to_submit use_stop_losses time_in_force frequency size_signals
              generate_close_orders orders_filters signals w).1 as [orders|e] eqn:Hbuild.
  - rewrite (SubmissionFacts.submission_run _ _ _ _ _ _ _ _ signals w orders Hbuild).
    destruct broker_cancel_all_open_orders as [[]|e]; cbn [snd broker_log].
    + right. right. exists orders. rewrite <- app_assoc. auto.
    + right. left. eauto.
  - rewrite (SubmissionFacts.failure_before_submission _ _ _ _ _ _ _ _ signals w e Hbuild).
    left. reflexivity.
Qed.

(** X12: when neither the sizer nor the rolling generator produces an
    order, no filter is applied, not even one that would fail, and the
    empty list is what is built for submission. *)
Theorem no_orders_bypass_filters (signals : list Ref) (w : @World RngState) :
  size_signals (signal_store w <$> signals) use_stop_losses time_in_force frequency
    = Returns [] ->
  generate_close_orders = Returns [] ->
  (orders_to_submit use_stop_losses time_in_force frequency size_signals
     generate_close_orders orders_filters signals w).1 = Returns [].
Proof.
  intros Hsize Hclose. unfold orders_to_submit, bind, lift.
  rewrite Hsize, Hclose. simpl. apply apply_orders_filters_nil.
Qed.

End Facts.

Lemma failure_leaves_broker_untouched_witness :
  _place_orders true "OPG" "DAILY" (fun _ _ _ _ => Returns [one_order]) (Returns [])
    [failing_filter] (Returns tt) (fun _ => Returns tt) [] idle_world
  = (Raises (CollaboratorError "filter applied"), idle_world).
Proof.
  apply (failure_leaves_broker_untouched true "OPG" "DAILY"
           (fun _ _ _ _ => Returns [one_order]) (Returns []) [failing_filter]
           (Returns tt) (fun _ => Returns tt) [] idle_world).
  reflexivity.
Defined.

Lemma no_orders_bypass_filters_witness :
  (orders_to_submit true "OPG" "DAILY" (fun _ _ _ _ => Returns []) (Returns [])
     [failing_filter; failing_filter] [] idle_world).1 = Returns [].
Proof.
  apply (no_orders_bypass_filters true "OPG" "DAILY" (fun _ _ _ _ => Returns [])
           (Returns []) [failing_filter; failing_filter] [] idle_world);
    reflexivity.
Defined.

End SubmissionMoreFacts.

(** * Properties of a whole cycle *)

Module CycleFacts.
Import AlphaModelStrategy AlphaModelStrategyCycle Vocabulary Samples CycleVocabulary.

Section Generation.
Context {RngState : Type} {Model : Type}.
Variable broker_positions : list Position.
Variable model_tickers_dict : list (Model * list Ticker).
Variable iterate_set : list Ticker -> list Ticker.
Variable get_signal : Model -> Ticker -> Exposure -> Outcome Signal.
Variable first_free : Ref.

Lemma signal_for_ticker_cases (m : Model) (t : Ticker) (signals : list Ref)
    (w : @World RngState) :
  signal_for_ticker broker_positions get_signal first_free m t signals w =
    match attempt broker_positions get_signal (m, t) with
    | Returns signal => append_new_signal first_free signals signal w
    | Raises NoValidTickerException => (Returns signals, w)
    | Raises e => (Raises e, w)
    end.
Proof.
  unfold signal_for_ticker, attempt. simpl.
  destruct (_get_current_exposure t broker_positions) as [x|e].
  - destruct (get_signal m t x) as [s|e]; [reflexivity|destruct e; reflexivity].
  - destruct e; reflexivity.
Qed.

Lemma produced_cons (mt : Model * Ticker) (pairs : list (Model * Ticker)) :
  produced broker_positions get_signal (mt :: pairs) =
    match attempt broker_positions get_signal mt with
    | Returns signal => signal :: produced broker_positions get_signal pairs
    | Raises _ => produced broker_positions get_signal pairs
    end.
Proof.
  unfold produced.
  destruct (attempt broker_positions get_signal mt) eqn:H;
    cbn; rewrite H; reflexivity.
Qed.

Lemma tickers_loop_as_pairs (m : Model) (ts : list Ticker)
    (rest : list (Model * Ticker)) (signals : list Ref) (w : @World RngState) :
  bind (signals_for_tickers broker_positions get_signal first_free m ts signals)
       (signals_for_pairs broker_positions get_signal first_free rest) w
  = signals_for_pairs broker_positions get_signal first_free
      (map (pair m) ts ++ rest) signals w.
Proof.
  revert signals w. induction ts as [|t ts IH]; intros signals w; [reflexivity|].
  cbn [signals_for_tickers map app signals_for_pairs fst snd].
  unfold bind at 1 2 3.
  destruct (signal_for_ticker broker_positions get_signal first_free m t signals w)
    as [[s|e] w1]; [|reflexivity].
  exact (IH s w1).
Qed.

Lemma loops_as_pairs (items : list (Model * list Ticker)) (signals : list Ref)
    (w : @World RngState) :
  signals_for_models broker_positions iterate_set get_signal first_free items signals w
  = signals_for_pairs broker_positions get_signal first_free
      (flat_map (fun item => map (pair item.1) (iterate_set item.2)) items) signals w.
Proof.
  revert signals w. induction items as [|[m ts] items IH]; intros signals w;
    [reflexivity|].
  cbn [signals_for_models flat_map fst snd].
  rewrite <- tickers_loop_as_pairs. unfold bind.
  destruct (signals_for_tickers broker_positions get_signal first_free m
              (iterate_set ts) signals w) as [[s|e] w1]; [|reflexivity].
  apply IH.
Qed.

(** Generating signals touches neither the random generator nor the
    broker. *)
Lemma pairs_keep_logs (pairs : list (Model * Ticker)) (signals : list Ref)
    (w : @World RngState) :
  let res := signals_for_pairs broker_positions get_signal first_free pairs signals w in
  rng res.2 = rng w /\ random_log res.2 = random_log w
  /\ broker_log res.2 = broker_log w.
Proof.
  revert signals w. induction pairs as [|[m t] pairs IH]; intros signals w;
    [simpl; auto|].
  cbn [signals_for_pairs fst snd]. unfold bind.
  rewrite signal_for_ticker_cases.
  destruct (attempt broker_positions get_signal (m, t)) as [s|e].
  - unfold append_new_signal.
    specialize (IH (signals ++ [first_free + length signals])
                  {| signal_store := fun r' =>
                       if Nat.eqb r' (first_free + length signals) then s
                       else signal_store w r';
                     rng := rng w; random_log := random_log w;
                     broker_log := broker_log w |}).
    exact IH.
  - destruct e; solve [apply IH | simpl; auto].
Qed.

Lemma pairs_produce (pairs : list (Model * Ticker)) (n : nat) (w : @World RngState) :
  Forall (fun mt => signal_or_skip (attempt broker_positions get_signal mt)) pairs ->
  let made := produced broker_positions get_signal pairs in
  let res :=
    signals_for_pairs broker_positions get_signal first_free pairs
      (seq first_free n) w in
  res.1 = Returns (seq first_free (n + length made))
  /\ (forall i s, made !! i = Some s -> signal_store res.2 (first_free + n + i) = s)
  /\ (forall x, x < first_free + n \/ first_free + n + length made <= x ->
                signal_store res.2 x = signal_store w x).
Proof.
  revert n w. induction pairs as [|[m t] pairs IH]; intros n w Hok made res.
  - subst made res. simpl. rewrite Nat.add_0_r. repeat split; auto.
    intros i s Hi. discriminate.
  - apply Forall_cons in Hok as [Hmt Hok].
    subst made res. cbn [signals_for_pairs fst snd]. unfold bind.
    rewrite signal_for_ticker_cases, produced_cons.
    destruct (attempt broker_positions get_signal (m, t)) as [s|e].
    + unfold append_new_signal. rewrite length_seq, <- seq_S.
      set (w1 := {| signal_store := fun r' =>
                      if Nat.eqb r' (first_free + n) then s else signal_store w r';
                    rng := rng w; random_log := random_log w;
                    broker_log := broker_log w |}).
      destruct (IH (S n) w1 Hok) as (Hres & Hnew & Hold).
      cbn [length]. split; [|split].
      * rewrite Hres. f_equal. f_equal. lia.
      * intros [|i] s' Hi.
        -- inversion Hi; subst s'. rewrite Hold by lia.
           subst w1. cbn [signal_store]. rewrite Nat.add_0_r, Nat.eqb_refl. reflexivity.
        -- replace (first_free + n + S i) with (first_free + S n + i) by lia.
           apply Hnew. exact Hi.
      * intros x Hx. rewrite Hold by lia.
        subst w1. cbn [signal_store].
        destruct (Nat.eqb_spec x (first_free + n)); [lia|reflexivity].
    + destruct e; try contradiction. exact (IH n w Hok).
Qed.

Lemma pairs_abort (l1 l2 : list (Model * Ticker)) (mt : Model * Ticker)
    (e : PyExn) (signals : list Ref) (w : @World RngState) :
  Forall (fun mt => signal_or_skip (attempt broker_positions get_signal mt)) l1 ->
  attempt broker_positions get_signal mt = Raises e ->
  e <> NoValidTickerException ->
  (signals_for_pairs broker_positions get_signal first_free
     (l1 ++ mt :: l2) signals w).1 = Raises e.
Proof.
  revert signals w. induction l1 as [|[m t] l1 IH]; intros signals w Hok Hmt He.
  - destruct mt as [m t]. cbn [app signals_for_pairs fst snd]. unfold bind.
    rewrite signal_for_ticker_cases, Hmt. destruct e; try reflexivity. contradiction.
  - apply Forall_cons in Hok as [Hhead Hok].
    cbn [app signals_for_pairs fst snd]. unfold bind.
    rewrite signal_for_ticker_cases.
    destruct (attempt broker_positions get_signal (m, t)) as [s|e'].
    + unfold append_new_signal. apply IH; assumption.
    + destruct e'; try contradiction. apply IH; assumption.
Qed.

(** X13: a pair (model, ticker) whose exposure or signal computation raises
    [NoValidTickerException] is skipped and the others go on: when no
    other exception occurs, signal generation returns, in the order the
    pairs are visited, one new signal object for every pair that gave a
    signal; the objects hold the signals the models returned and no other
    object is touched. *)
Theorem unresolvable_tickers_are_skipped (w : @World RngState) :
  Forall (fun mt => signal_or_skip (attempt broker_positions get_signal mt))
         (visited model_tickers_dict iterate_set) ->
  let made :=
    produced broker_positions get_signal (visited model_tickers_dict iterate_set) in
  let res :=
    _calculate_signals broker_positions model_tickers_dict iterate_set get_signal
      first_free w in
  res.1 = Returns (seq first_free (length made))
  /\ (forall i s, made !! i = Some s -> signal_store res.2 (first_free + i) = s)
  /\ (forall x, x < first_free \/ first_free + length made <= x ->
                signal_store res.2 x = signal_store w x).
Proof.
  intros Hok made res. subst res. unfold _calculate_signals.
  rewrite loops_as_pairs. fold (visited model_tickers_dict iterate_set).
  destruct (pairs_produce (visited model_tickers_dict iterate_set) 0 w Hok)
    as (Hres & Hnew & Hold).
  cbn [seq] in Hres, Hnew, Hold. rewrite Nat.add_0_r in Hold.
  repeat split.
  - exact Hres.
  - intros i s Hi. specialize (Hnew i s Hi).
    rewrite Nat.add_0_r in Hnew. exact Hnew.
  - exact Hold.
Qed.

(** X14: the first pair whose exposure or signal computation raises
    anything but [NoValidTickerException] ends signal generation with
    that exception: no list of signals is returned. *)
Theorem other_failures_abort_generation
    (l1 l2 : list (Model * Ticker)) (mt : Model * Ticker) (e : PyExn)
    (w : @World RngState) :
  visited model_tickers_dict iterate_set = l1 ++ mt :: l2 ->
  Forall (fun mt => signal_or_skip (attempt broker_positions get_signal mt)) l1 ->
  attempt broker_positions get_signal mt = Raises e ->
  e <> NoValidTickerException ->
  (_calculate_signals broker_positions model_tickers_dict iterate_set get_signal
     first_free w).1 = Raises e.
Proof.
  intros Hvisited Hok Hmt He. unfold _calculate_signals.
  rewrite loops_as_pairs. fold (visited model_tickers_dict iterate_set).
  rewrite Hvisited. apply pairs_abort; assumption.
Qed.

Lemma generation_keeps_logs (w : @World RngState) :
  let res :=
    _calculate_signals broker_positions model_tickers_dict iterate_set get_signal
      first_free w in
  rng res.2 = rng w /\ random_log res.2 = random_log w
  /\ broker_log res.2 = broker_log w.
Proof.
  intros res. subst res. unfold _calculate_signals. rewrite loops_as_pairs.
  apply pairs_keep_logs.
Qed.

End Generation.

Section WholeCycle.
Context {RngState : Type} {Model : Type}.
Variable random_seed : float -> RngState.
Variable random_draw : RngState -> nat -> nat -> list nat * RngState.
Variable use_stop_losses : bool.
Variable time_in_force : string.
Variable frequency : string.
Variable broker_positions : list Position.
Variable now_timestamp : float.
Variable size_signals :
  list Signal -> bool -> string -> string -> Outcome (list Order).
Variable generate_close_orders : Outcome (list Order).
Variable orders_filters : list (list Order -> Outcome (list Order)).
Variable broker_cancel_all_open_orders : Outcome unit.
Variable broker_place_orders : list Order -> Outcome unit.
Variable model_tickers_dict : list (Model * list Ticker).
Variable iterate_set : list Ticker -> list Ticker.
Variable get_signal : Model -> Ticker -> Exposure -> Outcome Signal.
Variable first_free : Ref.

Lemma unresolvable_tickers_are_skipped_aux (w : @World RngState) :
  Forall (fun mt => signal_or_skip (attempt broker_positions get_signal mt))
         (visited model_tickers_dict iterate_set) ->
  (_calculate_signals broker_positions model_tickers_dict iterate_set get_signal
     first_free w).1
  = Returns (seq first_free
               (length (produced broker_positions get_signal
                          (visited model_tickers_dict iterate_set))))
  /\ (forall i s,
        produced broker_positions get_signal
          (visited model_tickers_dict iterate_set) !! i = Some s ->
        signal_store
          (_calculate_signals broker_positions model_tickers_dict iterate_set
             get_signal first_free w).2 (first_free + i) = s).
Proof.
  intros Hok. unfold _calculate_signals. rewrite loops_as_pairs.
  fold (visited model_tickers_dict iterate_set).
  destruct (pairs_produce broker_positions get_signal first_free
              (visited model_tickers_dict iterate_set) 0 w Hok) as (Hres & Hnew & _).
  cbn [seq] in Hres, Hnew. split; [exact Hres|].
  intros i s Hi. specialize (Hnew i s Hi). rewrite Nat.add_0_r in Hnew. exact Hnew.
Qed.

Lemma place_orders_outcome (signals : list Ref) (w : @World RngState) :
  let res :=
    _place_orders use_stop_losses time_in_force frequency size_signals
      generate_close_orders orders_filters broker_cancel_all_open_orders
      broker_place_orders signals w in
  signal_store res.2 = signal_store w
  /\ rng res.2 = rng w
  /\ random_log res.2 = random_log w
  /\ (broker_log res.2 = broker_log w /\ (exists e, res.1 = Raises e)
      \/ (broker_log res.2 = broker_log w ++ [cancel_all_open_orders_call]
          /\ (exists e, broker_cancel_all_open_orders = Raises e)
          /\ (exists e, res.1 = Raises e))
      \/ (exists orders,
            broker_log res.2
            = broker_log w ++ [cancel_all_open_orders_call; place_orders_call orders]
            /\ broker_cancel_all_open_orders = Returns tt)).
Proof.
  intros res. subst res.
  destruct (orders_to_submit use_stop_losses time_in_force frequency size_signals
              generate_close_orders orders_filters signals w).1 as [orders|e] eqn:Hbuild.
  - rewrite (SubmissionFacts.submission_run _ _ _ _ _ _ _ _ signals w orders Hbuild).
    destruct broker_cancel_all_open_orders as [[]|e];
      cbn [fst snd signal_store rng random_log broker_log]; repeat split.
    + right. right. exists orders. rewrite <- app_assoc. auto.
    + right. left. eauto.
  - rewrite (SubmissionFacts.failure_before_submission _ _ _ _ _ _ _ _ signals w e Hbuild).
    cbn [fst snd]. repeat split. left. eauto.
Qed.

Lemma cycle_run (max_open_positions : option Z) (w : @World RngState) :
  calculate_and_place_orders random_seed random_draw max_open_positions
    use_stop_losses time_in_force frequency broker_positions now_timestamp
    size_signals generate_close_orders orders_filters
    broker_cancel_all_open_orders broker_place_orders model_tickers_dict
    iterate_set get_signal first_free w
  = match _calculate_signals broker_positions model_tickers_dict iterate_set
            get_signal first_free w with
    | (Raises e, w1) => (Raises e, w1)
    | (Returns signals, w1) =>
        match max_open_positions with
        | Some max =>
            match _adjust_number_of_open_positions random_seed random_draw max
                    broker_positions now_timestamp signals w1 with
            | (Raises e, w2) => (Raises e, w2)
            | (Returns _, w2) =>
                _place_orders use_stop_losses time_in_force frequency size_signals
                  generate_close_orders orders_filters
                  broker_cancel_all_open_orders broker_place_orders signals w2
            end
        | None =>
            _place_orders use_stop_losses time_in_force frequency size_signals
              generate_close_orders orders_filters
              broker_cancel_all_open_orders broker_place_orders signals w1
        end
    end.
Proof.
  unfold calculate_and_place_orders, bind, ret.
  destruct (_calculate_signals _ _ _ _ _ w) as [[signals|e] w1]; [|reflexivity].
  destruct max_open_positions as [max|]; [|reflexivity].
  destruct (_adjust_number_of_open_positions _ _ _ _ _ _ w1) as [[s|e] w2];
    reflexivity.
Qed.

Lemma place_orders_calls_and_result (signals : list Ref) (w : @World RngState) :
  let res :=
    _place_orders use_stop_losses time_in_force frequency size_signals
      generate_close_orders orders_filters broker_cancel_all_open_orders
      broker_place_orders signals w in
  (broker_log res.2 = broker_log w /\ (exists e, res.1 = Raises e))
  \/ (broker_log res.2 = broker_log w ++ [cancel_all_open_orders_call]
      /\ (exists e, broker_cancel_all_open_orders = Raises e /\ res.1 = Raises e))
  \/ (exists orders,
        broker_log res.2
        = broker_log w ++ [cancel_all_open_orders_call; place_orders_call orders]
        /\ broker_cancel_all_open_orders = Returns tt
        /\ res.1 = broker_place_orders orders).
Proof.
  intros res. subst res.
  destruct (orders_to_submit use_stop_losses time_in_force frequency size_signals
              generate_close_orders orders_filters signals w).1 as [orders|e] eqn:Hbuild.
  - rewrite (SubmissionFacts.submission_run _ _ _ _ _ _ _ _ signals w orders Hbuild).
    destruct broker_cancel_all_open_orders as [[]|e]; cbn [fst snd broker_log].
    + right. right. exists orders. rewrite <- app_assoc. auto.
    + right. left. eauto.
  - rewrite (SubmissionFacts.failure_before_submission _ _ _ _ _ _ _ _ signals w e Hbuild).
    left. cbn [fst snd]. eauto.
Qed.

(** X15: in a whole cycle the broker is called in one of three ways: not
    at all, and then the cycle raised; [cancel_all_open_orders] alone,
    when that call raised, and the cycle raised the same; or
    [cancel_all_open_orders] followed by one [place_orders], whose outcome
    is the outcome of the cycle.  A cycle in which signal generation
    raises, or in which the cap enforcement raises, raises that exception
    and leaves the broker alone; a cycle that returns has made both
    calls. *)
Theorem broker_calls_of_a_cycle (max_open_positions : option Z) (w : @World RngState) :
  let res :=
    calculate_and_place_orders random_seed random_draw max_open_positions
      use_stop_losses time_in_force frequency broker_positions now_timestamp
      size_signals generate_close_orders orders_filters
      broker_cancel_all_open_orders broker_place_orders model_tickers_dict
      iterate_set get_signal first_free w in
  let generated :=
    _calculate_signals broker_positions model_tickers_dict iterate_set get_signal
      first_free w in
  ((broker_log res.2 = broker_log w /\ (exists e, res.1 = Raises e))
   \/ (broker_log res.2 = broker_log w ++ [cancel_all_open_orders_call]
       /\ (exists e, broker_cancel_all_open_orders = Raises e /\ res.1 = Raises e))
   \/ (exists orders,
         broker_log res.2
         = broker_log w ++ [cancel_all_open_orders_call; place_orders_call orders]
         /\ broker_cancel_all_open_orders = Returns tt
         /\ res.1 = broker_place_orders orders))
  /\ (forall e,
        generated.1 = Raises e ->
        res.1 = Raises e /\ broker_log res.2 = broker_log w)
  /\ (forall signals max e,
        generated.1 = Returns signals ->
        max_open_positions = Some max ->
        (_adjust_number_of_open_positions random_seed random_draw max
           broker_positions now_timestamp signals generated.2).1 = Raises e ->
        res.1 = Raises e /\ broker_log res.2 = broker_log w)
  /\ (res.1 = Returns tt ->
      exists orders,
        broker_log res.2
        = broker_log w ++ [cancel_all_open_orders_call; place_orders_call orders]).
Proof.
  intros res generated.
  assert (Hcalls :
    (broker_log res.2 = broker_log w /\ (exists e, res.1 = Raises e))
    \/ (broker_log res.2 = broker_log w ++ [cancel_all_open_orders_call]
        /\ (exists e, broker_cancel_all_open_orders = Raises e /\ res.1 = Raises e))
    \/ (exists orders,
          broker_log res.2
          = broker_log w ++ [cancel_all_open_orders_call; place_orders_call orders]
          /\ broker_cancel_all_open_orders = Returns tt
          /\ res.1 = broker_place_orders orders)).
  { subst res. rewrite cycle_run.
    destruct (generation_keeps_logs broker_positions model_tickers_dict iterate_set
                get_signal first_free w) as (_ & _ & Hgen).
    destruct (_calculate_signals broker_positions model_tickers_dict iterate_set
                get_signal first_free w) as [[signals|e] w1]; cbn [snd] in Hgen.
    - destruct max_open_positions as [max|].
      + pose proof (CapMoreFacts.adjust_keeps_broker_log random_seed random_draw max
                      broker_positions now_timestamp signals w1) as Hlog.
        destruct (_adjust_number_of_open_positions random_seed random_draw max
                    broker_positions now_timestamp signals w1) as [[s|e] w2];
          cbn [snd] in Hlog.
        * pose proof (place_orders_calls_and_result signals w2) as H.
          cbv zeta in H. rewrite Hlog, Hgen in H. exact H.
        * left. cbn [fst snd]. split; [congruence|eauto].
      + pose proof (place_orders_calls_and_result signals w1) as H.
        cbv zeta in H. rewrite Hgen in H. exact H.
    - left. cbn [fst snd]. eauto. }
  split; [exact Hcalls|]. split; [|split].
  - intros e He. subst res generated. rewrite cycle_run.
    destruct (generation_keeps_logs broker_positions model_tickers_dict iterate_set
                get_signal first_free w) as (_ & _ & Hgen).
    destruct (_calculate_signals broker_positions model_tickers_dict iterate_set
                get_signal first_free w) as [[signals|e'] w1];
      cbn [fst snd] in *; [discriminate|].
    split; [congruence|exact Hgen].
  - intros signals max e Hsignals Hmax He. subst res generated. rewrite cycle_run.
    destruct (generation_keeps_logs broker_positions model_tickers_dict iterate_set
                get_signal first_free w) as (_ & _ & Hgen).
    destruct (_calculate_signals broker_positions model_tickers_dict iterate_set
                get_signal first_free w) as [[signals'|e'] w1];
      cbn [fst snd] in *; [|discriminate].
    inversion Hsignals; subst signals'. rewrite Hmax.
    pose proof (CapMoreFacts.adjust_keeps_broker_log random_seed random_draw max
                  broker_positions now_timestamp signals w1) as Hlog.
    destruct (_adjust_number_of_open_positions random_seed random_draw max
                broker_positions now_timestamp signals w1) as [[s|e'] w2];
      cbn [fst snd] in *; [discriminate|].
    split; congruence.
  - intros Hret.
    destruct Hcalls as [(_ & e & He)|[(_ & e & _ & He)|(orders & Hlog & _)]];
      [congruence|congruence|eauto].
Qed.

(** X16: without a configured maximum no signal is ever suppressed and the
    random generator is not touched: after the cycle every signal object
    still holds what its model returned (when no exception other than
    [NoValidTickerException] occurs in signal generation). *)
Theorem cycle_without_cap_keeps_signals (w : @World RngState) :
  Forall (fun mt => signal_or_skip (attempt broker_positions get_signal mt))
         (visited model_tickers_dict iterate_set) ->
  let made :=
    produced broker_positions get_signal (visited model_tickers_dict iterate_set) in
  let res :=
    calculate_and_place_orders random_seed random_draw None
      use_stop_losses time_in_force frequency broker_positions now_timestamp
      size_signals generate_close_orders orders_filters
      broker_cancel_all_open_orders broker_place_orders model_tickers_dict
      iterate_set get_signal first_free w in
  (forall i s, made !! i = Some s -> signal_store res.2 (first_free + i) = s)
  /\ rng res.2 = rng w
  /\ random_log res.2 = random_log w.
Proof.
  intros Hok made res. subst res made. rewrite cycle_run.
  destruct (generation_keeps_logs broker_positions model_tickers_dict iterate_set
              get_signal first_free w) as (Hrng & Hrlog & _).
  destruct (unresolvable_tickers_are_skipped_aux w Hok) as (Hres & Hnew).
  destruct (_calculate_signals broker_positions model_tickers_dict iterate_set
              get_signal first_free w) as [[signals|e] w1];
    cbn [fst snd] in *; [|discriminate].
  destruct (place_orders_outcome signals w1) as (Hstore & Hrng' & Hrlog' & _).
  cbv zeta in Hstore, Hrng', Hrlog'.
  rewrite Hstore, Hrng', Hrlog'. repeat split; assumption.
Qed.

(** X17: with a maximum configured, when the generated signals whose ticker
    has an open position alone outnumber it, the cycle ends with the
    [ValueError] of [random.sample] and the broker is not called: nothing
    is cancelled and nothing is placed. *)
Theorem cycle_fails_when_open_positions_exceed_cap
    (max : Z) (w w1 : @World RngState) (signals : list Ref) :
  _calculate_signals broker_positions model_tickers_dict iterate_set get_signal
    first_free w = (Returns signals, w1) ->
  (max < Z.of_nat (length (opened broker_positions (signal_store w1) signals)))%Z ->
  let res :=
    calculate_and_place_orders random_seed random_draw (Some max)
      use_stop_losses time_in_force frequency broker_positions now_timestamp
      size_signals generate_close_orders orders_filters
      broker_cancel_all_open_orders broker_place_orders model_tickers_dict
      iterate_set get_signal first_free w in
  res.1 = Raises (ValueError "Sample larger than population or is negative")
  /\ broker_log res.2 = broker_log w.
Proof.
  intros Hgen Hover res. subst res. rewrite cycle_run.
  destruct (generation_keeps_logs broker_positions model_tickers_dict iterate_set
              get_signal first_free w) as (_ & _ & Hlog).
  rewrite Hgen in *. cbn [snd] in Hlog.
  destruct (CapMoreFacts.adjust_raises_iff random_seed random_draw max
              broker_positions now_timestamp signals w1) as [[_ Hraise] Hwhat].
  destruct (Hwhat (Hraise Hover)) as (Hres & _ & Hblog).
  destruct (_adjust_number_of_open_positions random_seed random_draw max
              broker_positions now_timestamp signals w1) as [[s|e] w2];
    cbn [fst snd] in *; [discriminate|].
  split; congruence.
Qed.

End WholeCycle.

(** ** Sample cycles *)

Lemma sample_pairs_resolve_or_skip (positions : list Position) :
  NoDup (position_ticker <$> positions) ->
  Forall (fun mt => signal_or_skip (attempt positions sample_get_signal mt))
         (visited sample_dict id).
Proof.
  intros Hnd. unfold visited, sample_dict. simpl.
  repeat constructor; unfold attempt; simpl;
    rewrite (ExposureFacts.exposure_of_specific_ticker _ positions Hnd); exact I.
Qed.

Lemma unresolvable_tickers_are_skipped_witness :
  (_calculate_signals [] sample_dict id sample_get_signal 0 empty_world).1
  = Returns [0; 1].
Proof.
  destruct (unresolvable_tickers_are_skipped [] sample_dict id sample_get_signal 0
              empty_world (sample_pairs_resolve_or_skip [] (NoDup_nil_2)))
    as (Hres & _).
  exact Hres.
Defined.

Lemma other_failures_abort_generation_witness :
  (_calculate_signals [position "AAPL" 5; position "AAPL" 7] sample_dict id
     sample_get_signal 0 empty_world).1
  = Raises (AssertionError "There should be max 1 position open per ticker").
Proof.
  apply (other_failures_abort_generation
           [position "AAPL" 5; position "AAPL" 7] sample_dict id sample_get_signal 0
           [] [(Expired, SpecificTicker "MSFT"); (Momentum, SpecificTicker "IBM")]
           (Momentum, SpecificTicker "AAPL")
           (AssertionError "There should be max 1 position open per ticker")
           empty_world).
  - reflexivity.
  - constructor.
  - vm_compute. reflexivity.
  - discriminate.
Defined.

Lemma cycle_without_cap_keeps_signals_witness :
  signal_store
    (calculate_and_place_orders unit_seed unit_draw None true "OPG" "DAILY" []
       1577836800%float sample_size_signals (Returns []) [] (Returns tt)
       (fun _ => Returns tt) sample_dict id sample_get_signal 0 empty_world).2 1
  = {| ticker := SpecificTicker "IBM"; suggested_exposure := LONG;
       fraction_at_risk := 0.04%float |}.
Proof.
  destruct (cycle_without_cap_keeps_signals unit_seed unit_draw true "OPG" "DAILY" []
              1577836800%float sample_size_signals (Returns []) [] (Returns tt)
              (fun _ => Returns tt) sample_dict id sample_get_signal 0 empty_world
              (sample_pairs_resolve_or_skip [] (NoDup_nil_2)))
    as (Hnew & _).
  apply (Hnew 1). reflexivity.
Defined.

Lemma broker_calls_of_a_cycle_witness :
  (calculate_and_place_orders unit_seed unit_draw (Some 1%Z) true "OPG" "DAILY"
     [position "AAPL" 5; position "AAPL" 7]
     1577836800%float sample_size_signals (Returns []) [] (Returns tt)
     (fun _ => Returns tt) sample_dict id sample_get_signal 0 empty_world).1
  = Raises (AssertionError "There should be max 1 position open per ticker")
  /\ broker_log
       (calculate_and_place_orders unit_seed unit_draw (Some 1%Z) true "OPG" "DAILY"
          [position "AAPL" 5; position "AAPL" 7]
          1577836800%float sample_size_signals (Returns []) [] (Returns tt)
          (fun _ => Returns tt) sample_dict id sample_get_signal 0 empty_world).2
     = broker_log empty_world.
Proof.
  pose proof (broker_calls_of_a_cycle unit_seed unit_draw true "OPG" "DAILY"
                [position "AAPL" 5; position "AAPL" 7] 1577836800%float
                sample_size_signals (Returns []) [] (Returns tt)
                (fun _ => Returns tt) sample_dict id sample_get_signal 0
                (Some 1%Z) empty_world) as H.
  cbv zeta in H. destruct H as (_ & Hgen & _).
  apply Hgen. vm_compute. reflexivity.
Defined.

Lemma sample_positions_NoDup :
  NoDup (position_ticker <$> [position "AAPL" 5; position "IBM" 3]).
Proof. apply (bool_decide_unpack _). vm_compute. exact I. Qed.

Lemma cycle_fails_when_open_positions_exceed_cap_witness :
  (calculate_and_place_orders unit_seed unit_draw (Some 1%Z) true "OPG" "DAILY"
     [position "AAPL" 5; position "IBM" 3]
     1577836800%float sample_size_signals (Returns []) [] (Returns tt)
     (fun _ => Returns tt) sample_dict id sample_get_signal 0 empty_world).1
  = Raises (ValueError "Sample larger than population or is negative").
Proof.
  assert (Hres :
    (_calculate_signals [position "AAPL" 5; position "IBM" 3] sample_dict id
       sample_get_signal 0 empty_world).1 = Returns [0; 1]).
  { destruct (unresolvable_tickers_are_skipped_aux
                [position "AAPL" 5; position "IBM" 3] sample_dict id
                sample_get_signal 0 empty_world
                (sample_pairs_resolve_or_skip _ sample_positions_NoDup)) as (H & _).
    exact H. }
  apply (cycle_fails_when_open_positions_exceed_cap unit_seed unit_draw true "OPG"
           "DAILY" [position "AAPL" 5; position "IBM" 3] 1577836800%float
           sample_size_signals (Returns []) [] (Returns tt) (fun _ => Returns tt)
           sample_dict id sample_get_signal 0 1%Z empty_world
           (_calculate_signals [position "AAPL" 5; position "IBM" 3] sample_dict id
              sample_get_signal 0 empty_world).2
           [0; 1]).
  - revert Hres.
    destruct (_calculate_signals [position "AAPL" 5; position "IBM" 3] sample_dict id
                sample_get_signal 0 empty_world) as [o w1].
    cbn [fst snd]. intros ->. reflexivity.
  - vm_compute. reflexivity.
Defined.

End CycleFacts.

(** * More on InitialRiskPositionSizer *)

Module SizerMoreFacts.
Import InitialRiskPositionSizer Vocabulary Samples.

(** A float that compares equal to 0.0 is a zero, hence finite. *)
Lemma zero_is_finite (x : float) :
  PrimFloat.eqb x PrimFloat.zero = true -> is_finite_number x = true.
Proof.
  intros H. rewrite FloatAxioms.eqb_spec in H.
  change (Prim2SF PrimFloat.zero) with (SpecFloat.S754_zero false) in H.
  unfold is_finite_number, PrimFloat.is_nan, PrimFloat.is_infinity.
  rewrite !FloatAxioms.eqb_spec, abs_spec.
  change (Prim2SF PrimFloat.infinity) with (SpecFloat.S754_infinity false).
  destruct (Prim2SF x) as [s|s| |s m e]; simpl in H; try discriminate.
  - reflexivity.
  - destruct s; discriminate.
  - destruct s; discriminate.
Qed.

(** X19: the market-order generator returns an order only if it asked the
    factory exactly once, with a market style and a finite target, and
    the factory answered with that one order; in every other case it
    returns no order. *)
Theorem market_order_comes_from_one_factory_call
    (initial_risk : float)
    (target_percent_orders :
       Contract -> float -> ExecutionStyle -> Outcome (list Order))
    (contract : Contract) (signal : Signal) (log : list FactoryCall) (o : Order) :
  (_generate_market_order initial_risk target_percent_orders contract signal log).1
  = Returns (Some o) ->
  exists target,
    py_truediv initial_risk (fraction_at_risk signal) = Returns target
    /\ is_finite_number target = true
    /\ target_percent_orders contract target MarketOrder = Returns [o]
    /\ (_generate_market_order initial_risk target_percent_orders contract signal log).2
       = log ++ [target_percent_orders_call contract target MarketOrder].
Proof.
  unfold _generate_market_order, order_factory_target_percent_orders,
    bind, py_assert, lift, ret, raise.
  destruct (is_finite_number initial_risk); simpl; [|discriminate].
  destruct (is_finite_number (fraction_at_risk signal)); simpl; [|discriminate].
  destruct (py_truediv initial_risk (fraction_at_risk signal)) as [target|e];
    simpl; [|discriminate].
  destruct (is_finite_number target) eqn:Hfin; simpl; [|discriminate].
  destruct (target_percent_orders contract target MarketOrder)
    as [[|o1 [|o2 l]]|e] eqn:Hanswer; simpl; try discriminate.
  intros H. inversion H; subst o1. exists target. auto.
Qed.

Lemma market_order_comes_from_one_factory_call_witness :
  exists target,
    py_truediv 0.02%float (fraction_at_risk (aapl_signal 0.04%float)) = Returns target
    /\ is_finite_number target = true
    /\ one_order_factory "AAPL" target MarketOrder
       = Returns [{| order_contract := "AAPL"; order_quantity := 10;
                     order_execution_style := MarketOrder;
                     order_time_in_force := "OPG" |}]
    /\ (_generate_market_order 0.02%float one_order_factory "AAPL"
          (aapl_signal 0.04%float) []).2
       = [] ++ [target_percent_orders_call "AAPL" target MarketOrder].
Proof.
  apply (market_order_comes_from_one_factory_call 0.02%float one_order_factory
           "AAPL" (aapl_signal 0.04%float) []).
  reflexivity.
Defined.

End SizerMoreFacts.

(** * The sizer and the run-time type of its numbers *)

Module TypedOperandsFacts.
Import InitialRiskPositionSizer Vocabulary Samples.

(** Between builtin floats the typed generator is the generator. *)
Lemma builtin_floats_agree
    (initial_risk : float)
    (target_percent_orders :
       Contract -> float -> ExecutionStyle -> Outcome (list Order))
    (contract : Contract) (signal : Signal) (log : list FactoryCall) :
  TypedOperands._generate_market_order initial_risk TypedOperands.builtin_float
    target_percent_orders contract signal TypedOperands.builtin_float log
  = _generate_market_order initial_risk target_percent_orders contract signal log.
Proof. reflexivity. Qed.

(** The IEEE quotient by a zero is an infinity or NaN, never finite. *)
Lemma quotient_by_zero_is_not_finite (x y : float) :
  PrimFloat.eqb y PrimFloat.zero = true ->
  is_finite_number (PrimFloat.div x y) = false.
Proof.
  intros H. rewrite FloatAxioms.eqb_spec in H.
  change (Prim2SF PrimFloat.zero) with (SpecFloat.S754_zero false) in H.
  unfold is_finite_number, PrimFloat.is_nan, PrimFloat.is_infinity.
  rewrite !FloatAxioms.eqb_spec, abs_spec, div_spec.
  change (Prim2SF PrimFloat.infinity) with (SpecFloat.S754_infinity false).
  unfold SF64div.
  destruct (Prim2SF y) as [sy|sy| |sy my ey]; simpl in H; try discriminate;
    try (destruct sy; discriminate).
  destruct (Prim2SF x) as [sx|sx| |sx mx ex]; simpl; try reflexivity;
    apply andb_false_r.
Qed.

Lemma zero_divisor_run
    (initial_risk : float) (initial_risk_type : TypedOperands.FloatType)
    (target_percent_orders :
       Contract -> float -> ExecutionStyle -> Outcome (list Order))
    (contract : Contract) (signal : Signal)
    (fraction_at_risk_type : TypedOperands.FloatType) (log : list FactoryCall) :
  is_finite_number initial_risk = true ->
  PrimFloat.eqb (fraction_at_risk signal) PrimFloat.zero = true ->
  is_finite_number (fraction_at_risk signal) = true
  /\ TypedOperands._generate_market_order initial_risk initial_risk_type
       target_percent_orders contract signal fraction_at_risk_type log
     = (Raises (TypedOperands.zero_divisor_error initial_risk_type
                  fraction_at_risk_type), log).
Proof.
  intros Hir Hz.
  pose proof (SizerMoreFacts.zero_is_finite _ Hz) as Hfar.
  split; [exact Hfar|].
  unfold TypedOperands._generate_market_order, TypedOperands.truediv,
    TypedOperands.zero_divisor_error, bind, py_assert, lift, ret, raise, py_truediv.
  rewrite Hir, Hfar. simpl.
  destruct initial_risk_type, fraction_at_risk_type; simpl;
    rewrite ?Hz, ?(quotient_by_zero_is_not_finite initial_risk _ Hz); reflexivity.
Qed.

(** C10 (as stated, refuted): with a finite non-zero initial risk and a
    fraction at risk of exactly 0.0 held as a [numpy.float64], both input
    assertions pass, the division raises nothing, and it is the quotient
    assertion that fails: the error is the precondition assertion and not
    a division by zero. *)
Lemma numpy_zero_fails_the_quotient_assertion :
  is_finite_number 0.02%float = true
  /\ PrimFloat.eqb 0.02%float PrimFloat.zero = false
  /\ fraction_at_risk (aapl_signal 0%float) = PrimFloat.zero
  /\ TypedOperands.truediv TypedOperands.builtin_float TypedOperands.numpy_float64
       0.02%float (fraction_at_risk (aapl_signal 0%float))
     = Returns PrimFloat.infinity
  /\ TypedOperands._generate_market_order 0.02%float TypedOperands.builtin_float
       one_order_factory "AAPL" (aapl_signal 0%float) TypedOperands.numpy_float64 []
     = (Raises (AssertionError "target_percentage has to be a finite number"), []).
Proof. repeat split; reflexivity. Qed.

(** C10 (amended): with a finite non-zero initial risk and a fraction at
    risk of exactly 0.0, both input assertions pass (0.0 is finite) and no
    order is returned, the factory not being called.  When both numbers
    are builtin floats the division raises [ZeroDivisionError] before the
    quotient assertion is reached: an unguarded arithmetic error, not the
    assertion path.  When one of them is a [numpy.float64] the division
    returns a quotient that is not finite and the quotient assertion
    fails. *)
Theorem zero_fraction_at_risk_fails_by_operand_type
    (initial_risk : float) (initial_risk_type : TypedOperands.FloatType)
    (target_percent_orders :
       Contract -> float -> ExecutionStyle -> Outcome (list Order))
    (contract : Contract) (signal : Signal)
    (fraction_at_risk_type : TypedOperands.FloatType) (log : list FactoryCall) :
  is_finite_number initial_risk = true ->
  PrimFloat.eqb initial_risk PrimFloat.zero = false ->
  fraction_at_risk signal = PrimFloat.zero ->
  is_finite_number (fraction_at_risk signal) = true
  /\ TypedOperands._generate_market_order initial_risk initial_risk_type
       target_percent_orders contract signal fraction_at_risk_type log
     = (Raises
          match initial_risk_type, fraction_at_risk_type with
          | TypedOperands.builtin_float, TypedOperands.builtin_float =>
              ZeroDivisionError "float division by zero"
          | _, _ => AssertionError "target_percentage has to be a finite number"
          end,
        log).
Proof.
  intros Hir _ Hz.
  apply (zero_divisor_run initial_risk initial_risk_type target_percent_orders
           contract signal fraction_at_risk_type log Hir).
  rewrite Hz. reflexivity.
Qed.

Lemma zero_fraction_at_risk_fails_by_operand_type_witness :
  is_finite_number 0.02%float = true
  /\ (TypedOperands._generate_market_order 0.02%float TypedOperands.builtin_float
        one_order_factory "AAPL" (aapl_signal 0%float) TypedOperands.builtin_float []
      = (Raises (ZeroDivisionError "float division by zero"), []))
  /\ (TypedOperands._generate_market_order 0.02%float TypedOperands.numpy_float64
        one_order_factory "AAPL" (aapl_signal 0%float) TypedOperands.builtin_float []
      = (Raises (AssertionError "target_percentage has to be a finite number"), [])).
Proof.
  split; [reflexivity|]. split.
  - apply (zero_fraction_at_risk_fails_by_operand_type 0.02%float
             TypedOperands.builtin_float one_order_factory "AAPL"
             (aapl_signal 0%float) TypedOperands.builtin_float []); reflexivity.
  - apply (zero_fraction_at_risk_fails_by_operand_type 0.02%float
             TypedOperands.numpy_float64 one_order_factory "AAPL"
             (aapl_signal 0%float) TypedOperands.builtin_float []); reflexivity.
Defined.

(** X18: a fraction at risk that is zero, of either sign (0.0 or -0.0),
    never gives an order when the initial risk is finite: both input
    assertions pass and the factory is not called; between builtin floats
    the division raises [ZeroDivisionError], and when one of the numbers
    is a [numpy.float64] the quotient is not finite and the quotient
    assertion fails. *)
Theorem zero_of_either_sign_gives_no_order
    (initial_risk : float) (initial_risk_type : TypedOperands.FloatType)
    (target_percent_orders :
       Contract -> float -> ExecutionStyle -> Outcome (list Order))
    (contract : Contract) (signal : Signal)
    (fraction_at_risk_type : TypedOperands.FloatType) (log : list FactoryCall) :
  is_finite_number initial_risk = true ->
  PrimFloat.eqb (fraction_at_risk signal) PrimFloat.zero = true ->
  is_finite_number (fraction_at_risk signal) = true
  /\ TypedOperands._generate_market_order initial_risk initial_risk_type
       target_percent_orders contract signal fraction_at_risk_type log
     = (Raises
          match initial_risk_type, fraction_at_risk_type with
          | TypedOperands.builtin_float, TypedOperands.builtin_float =>
              ZeroDivisionError "float division by zero"
          | _, _ => AssertionError "target_percentage has to be a finite number"
          end,
        log).
Proof. apply zero_divisor_run. Qed.

Lemma zero_of_either_sign_gives_no_order_witness :
  PrimFloat.eqb (fraction_at_risk (aapl_signal (-0)%float)) PrimFloat.zero = true
  /\ (TypedOperands._generate_market_order 0.02%float TypedOperands.builtin_float
        one_order_factory "AAPL" (aapl_signal (-0)%float)
        TypedOperands.builtin_float []
      = (Raises (ZeroDivisionError "float division by zero"), []))
  /\ (TypedOperands._generate_market_order 0.02%float TypedOperands.builtin_float
        one_order_factory "AAPL" (aapl_signal (-0)%float)
        TypedOperands.numpy_float64 []
      = (Raises (AssertionError "target_percentage has to be a finite number"), [])).
Proof.
  split; [reflexivity|]. split.
  - apply (zero_of_either_sign_gives_no_order 0.02%float
             TypedOperands.builtin_float one_order_factory "AAPL"
             (aapl_signal (-0)%float) TypedOperands.builtin_float []); reflexivity.
  - apply (zero_of_either_sign_gives_no_order 0.02%float
             TypedOperands.builtin_float one_order_factory "AAPL"
             (aapl_signal (-0)%float) TypedOperands.numpy_float64 []); reflexivity.
Defined.

End TypedOperandsFacts.
